(** * Logitech G502 Hero driver (liquidctl/driver/logitech_g502.py)

    A shallow embedding of the class [LogitechHero502]: the storage key
    built by [connect], the stub entry points, and the lighting report
    built and sent by [set_color].

    Modelling choices.
    - A Python [str] is the list of its code points ([str]).  An ASCII
      literal written between double quotes stands for its code points
      (the coercion [codes]).
    - [str.lower] and the character class [\d] are exact on ASCII text.
      What they do with a character above 127 is read from the Unicode
      tables of the interpreter, which are not part of the repository:
      they are the parameter [ucd], and every statement holds for every
      value of it.
    - Python values that reach a [bytearray] slot are [pyval]s: integers,
      strings and [None] (the last two stand for every non-integer).
    - A colour is the sequence of its components, [list pyval]; indexing it
      out of range raises [IndexError] as in Python.
    - The HID transport ([self.device]) is external: it is a parameter
      [hid] that, given the calls made so far and the call attempted,
      either answers with bytes or fails.  Every call attempted is logged
      in a trace, which is the only state the driver methods touch. *)

From Stdlib Require Import ZArith Lia Ascii String.
From stdpp Require Import base list strings.

Local Open Scope Z_scope.

(** ** Text *)

(** A Python string: its code points. *)
Definition str : Type := list N.

(** The code points of an ASCII literal. *)
Definition codes (s : string) : list N :=
  map N_of_ascii (list_ascii_of_string s).

Coercion codes : string >-> list.

(** [==] on strings. *)
Fixpoint str_eqb (a b : str) : bool :=
  match a, b with
  | [], [] => true
  | x :: a', y :: b' => (x =? y)%N && str_eqb a' b'
  | _, _ => false
  end.

(** The part of the Unicode character database that the driver reaches
    through [str.lower] and [re]: the lowercase form of a string that
    holds a character above 127, and whether a character above 127 is a
    decimal digit (category Nd). *)
Record unicode : Type := {
  unicode_lower : str -> str;
  unicode_decimal : N -> bool
}.

Definition is_ascii (c : N) : bool := (c <? 128)%N.

Definition lower_ascii (c : N) : N :=
  if ((65 <=? c) && (c <=? 90))%N then (c + 32)%N else c.

(** [str.lower]: A-Z to a-z on ASCII text, the Unicode mapping
    otherwise. *)
Definition lower (ucd : unicode) (s : str) : str :=
  if forallb is_ascii s then map lower_ascii s else unicode_lower ucd s.

(** [sep.join(parts)] *)
Fixpoint join (sep : str) (parts : list str) : str :=
  match parts with
  | [] => []
  | [p] => p
  | p :: ps => p ++ sep ++ join sep ps
  end.

(** The character class [\d] of a [str] pattern: 0-9 below 128, the
    Unicode decimal digits above. *)
Definition is_digit (ucd : unicode) (c : N) : bool :=
  if is_ascii c then ((48 <=? c) && (c <=? 57))%N else unicode_decimal ucd c.

(** What a finished run contributes to the matches: nothing when empty. *)
Definition flush (run : str) : list str :=
  match run with
  | [] => []
  | _ => [run]
  end.

(** The scan behind [re.findall(r'\d+', s)]: [run] holds the digits of the
    match in progress; a non-digit, or the end of the text, closes it. *)
Fixpoint scan_digits (ucd : unicode) (s : str) (run : str) : list str :=
  match s with
  | [] => flush run
  | c :: s' =>
      if is_digit ucd c then scan_digits ucd s' (run ++ [c])
      else flush run ++ scan_digits ucd s' []
  end.

Definition findall_digits (ucd : unicode) (s : str) : list str :=
  scan_digits ucd s [].

(** One lowercase hexadecimal digit. *)
Definition hex_digit (d : N) : ascii :=
  if (d <? 10)%N then ascii_of_N (48 + d) else ascii_of_N (87 + d).

(** Least significant digit first, pushed in front of [acc], until the
    quotient is zero. *)
Fixpoint hex_digits (fuel : nat) (n : N) (acc : string) : string :=
  match fuel with
  | O => acc
  | S fuel' =>
      let acc' := String (hex_digit (n mod 16)) acc in
      if (n / 16 =? 0)%N then acc' else hex_digits fuel' (n / 16) acc'
  end.

(** [format(n, 'x')]; the number of bits of [n] bounds the number of
    digits. *)
Definition format_x (n : N) : string :=
  hex_digits (S (N.to_nat (N.size n))) n EmptyString.

Fixpoint zeros (k : nat) : string :=
  match k with
  | O => EmptyString
  | S k' => String "0" (zeros k')
  end.

(** The fill of a format spec [0<width>]: zeros in front, up to [width]. *)
Definition zfill (width : nat) (s : string) : string :=
  zeros (width - String.length s) +:+ s.

(** [f'{n:04x}'] *)
Definition format_04x (n : N) : string := zfill 4 (format_x n).

(** The double-quote character, as it appears inside the error messages. *)
Definition dquote : str := [34%N].

Definition quoted (s : str) : str := dquote ++ s ++ dquote.

(** ** Python values and exceptions *)

Inductive pyval : Type :=
| PyInt (z : Z)
| PyStr (s : str)
| PyNone.

(** [==] between two Python values: an [int] never equals a [str]. *)
Definition py_eq (a b : pyval) : bool :=
  match a, b with
  | PyInt x, PyInt y => Z.eqb x y
  | PyStr s, PyStr t => str_eqb s t
  | PyNone, PyNone => true
  | _, _ => false
  end.

Inductive exn : Type :=
| ValueError (msg : str)
| TypeError
| IndexError
| NotSupportedByDevice
| OSError.

Inductive result (A : Type) : Type :=
| Return (a : A)
| Raise (e : exn).
Arguments Return {A} a.
Arguments Raise {A} e.

(** ** Byte buffers *)

(** [bytearray(n)]: [n] zero bytes. *)
Definition bytearray (n : nat) : list Z := replicate n 0.

(** [buf[i] = v] on a bytearray: the index is checked first, then the value
    must be an integer in [range(0, 256)]. *)
Definition bytearray_setitem (buf : list Z) (i : nat) (v : pyval) : result (list Z) :=
  if (i <? length buf)%nat then
    match v with
    | PyInt z =>
        if (0 <=? z) && (z <? 256) then Return (<[i:=z]> buf)
        else Raise (ValueError "byte must be in range(0, 256)")
    | _ => Raise TypeError
    end
  else Raise IndexError.

(** [seq[i]] on a tuple or list, for a non-negative [i]. *)
Definition py_getitem (seq : list pyval) (i : nat) : result pyval :=
  match seq !! i with
  | Some v => Return v
  | None => Raise IndexError
  end.

(** [bytes(iterable_of_ints)] *)
Definition bytes (l : list Z) : result (list Z) :=
  if forallb (fun z => (0 <=? z) && (z <? 256)) l then Return l
  else Raise (ValueError "bytes must be in range(0, 256)").

(** ** The transport and the driver monad *)

Inductive event : Type :=
| EvClear                      (* device.clear_enqueued_reports() *)
| EvWrite (data : list Z)      (* device.write(data) *)
| EvRead (length : Z).         (* device.read(length) *)

Definition trace := list event.

(** The device: from the calls made so far and the call attempted, the
    bytes answered, or [None] when the transport fails. *)
Definition transport := trace -> event -> option (list Z).

Definition M (A : Type) : Type := trace -> result A * trace.

Definition ret {A} (a : A) : M A := fun tr => (Return a, tr).
Definition raise {A} (e : exn) : M A := fun tr => (Raise e, tr).
Definition bind {A B} (m : M A) (k : A -> M B) : M B :=
  fun tr =>
    match m tr with
    | (Return a, tr') => k a tr'
    | (Raise e, tr') => (Raise e, tr')
    end.
Definition lift {A} (r : result A) : M A := fun tr => (r, tr).

(** Sequencing of computations that only succeed or raise. *)
Definition rbind {A B} (r : result A) (k : A -> result B) : result B :=
  match r with
  | Return a => k a
  | Raise e => Raise e
  end.

Notation "x <- m ;; k" := (bind m (fun x => k))
  (at level 100, m at next level, right associativity).
Notation "m ;;; k" := (bind m (fun _ => k))
  (at level 100, right associativity).
Notation "x <~ r ;; k" := (rbind r (fun x => k))
  (at level 100, r at next level, right associativity).

(** One call on [self.device]; the attempt is logged whether it succeeds
    or not, and a transport failure propagates unchanged. *)
Definition device_call (hid : transport) (e : event) : M (list Z) :=
  fun tr =>
    match hid tr e with
    | Some r => (Return r, tr ++ [e])
    | None => (Raise OSError, tr ++ [e])
    end.

(** ** The driver *)

Module LogitechHero502.

Record driver : Type := {
  vendor_id : N;
  product_id : N;
  address : str;
  _data : option (list str)
}.

(** [connect(self, **kwargs)], after the inherited [connect] has opened the
    transport: the two key prefixes handed to [RuntimeStorage]. *)
Definition connect (ucd : unicode) (self : driver) : driver :=
  let ids : str := "vid" ++ format_04x (vendor_id self)
                   ++ "_pid" ++ format_04x (product_id self) in
  let loc : str := "loc" ++ join "_" (findall_digits ucd (address self)) in
  {| vendor_id := vendor_id self;
     product_id := product_id self;
     address := address self;
     _data := Some [ids; loc] |}.

Section Methods.

Variable ucd : unicode.
Variable hid : transport.

(** Arguments the methods never inspect ([pump_mode], [duty], [profile],
    [unsafe], the extra keyword arguments) are taken at any type. *)

(** [initialize(self, pump_mode='balanced', **kwargs)] *)
Definition initialize {P K : Type} (pump_mode : P) (kwargs : K)
  : M (list (str * pyval * str)) :=
  ret [].

(** [get_status(self, **kwargs)] *)
Definition get_status {K : Type} (kwargs : K)
  : M (list (str * pyval * str)) :=
  ret [].

(** [set_fixed_speed(self, channel, duty, **kwargs)] *)
Definition set_fixed_speed {C D K : Type} (channel : C) (duty : D) (kwargs : K)
  : M unit :=
  raise NotSupportedByDevice.

(** [set_speed_profile(self, channel, profile, **kwargs)] *)
Definition set_speed_profile {C P K : Type} (channel : C) (profile : P) (kwargs : K)
  : M unit :=
  raise NotSupportedByDevice.

Definition _REPORT_LENGTH : nat := 20.

Definition channel_error (channel : str) : exn :=
  ValueError ("Channel " ++ channel ++ " invalid, must be one of ("
              ++ quoted "dpi" ++ ", " ++ quoted "logo" ++ ")").

Definition mode_error (mode : str) : exn :=
  ValueError ("Mode " ++ mode ++ " invalid, must be one of ("
              ++ quoted "off" ++ ", " ++ quoted "fixed" ++ ", "
              ++ quoted "breathing" ++ ", " ++ quoted "rainbow" ++ ")").

(** [set_color(self, channel, mode, colors, unsafe=None, **kwargs)].
    The names [channel] and [mode] are rebound to their numeric codes, as
    in the source, so the colour-count test compares those codes with
    strings. *)
Definition set_color {U K : Type} (channel mode : str)
    (colors : list (list pyval)) (unsafe : U) (kwargs : K) : M unit :=
  let channel := lower ucd channel in
  let mode := lower ucd mode in
  channel <- (if str_eqb channel "dpi" then ret (PyInt 0x00)
              else if str_eqb channel "logo" then ret (PyInt 0x01)
              else raise (channel_error channel)) ;;
  mode <- (if str_eqb mode "off" then ret (PyInt 0x00)
           else if str_eqb mode "fixed" then ret (PyInt 0x01)
           else if str_eqb mode "breathing" then ret (PyInt 0x02)
           else if str_eqb mode "rainbow" then ret (PyInt 0x03)
           else raise (mode_error mode)) ;;
  if (py_eq mode (PyStr "fixed") || py_eq mode (PyStr "breathing"))
     && negb (length colors =? 1)%nat
  then raise (ValueError "One color must be given")
  else
    let color :=
      if (length colors =? 0)%nat then [PyInt 0; PyInt 0; PyInt 0]
      else match colors with c :: _ => c | [] => [] end in
    let buf := bytearray (_REPORT_LENGTH + 1) in
    buf <- lift (bytearray_setitem buf 1 (PyInt 0x11)) ;;
    buf <- lift (bytearray_setitem buf 2 (PyInt 0xFF)) ;;
    buf <- lift (bytearray_setitem buf 3 (PyInt 0x02)) ;;
    buf <- lift (bytearray_setitem buf 4 (PyInt 0x3A)) ;;
    buf <- lift (bytearray_setitem buf 5 channel) ;;
    buf <- lift (bytearray_setitem buf 6 mode) ;;
    c0 <- lift (py_getitem color 0) ;;
    buf <- lift (bytearray_setitem buf 7 c0) ;;
    c1 <- lift (py_getitem color 1) ;;
    buf <- lift (bytearray_setitem buf 8 c1) ;;
    c2 <- lift (py_getitem color 2) ;;
    buf <- lift (bytearray_setitem buf 9 c2) ;;
    buf <- (if py_eq mode (PyInt 0x01)
            then lift (bytearray_setitem buf 10 (PyInt 0x02))
            else ret buf) ;;
    device_call hid EvClear ;;;
    device_call hid (EvWrite buf) ;;;
    r <- device_call hid (EvRead (Z.of_nat _REPORT_LENGTH)) ;;
    lift (bytes r) ;;;
    ret tt.

(** Lines 153-166 of [set_color] on their own: the buffer as a function of
    the three names those lines read. *)
Definition fill_report (channel mode : pyval) (color : list pyval)
  : result (list Z) :=
  let buf := bytearray (_REPORT_LENGTH + 1) in
  buf <~ bytearray_setitem buf 1 (PyInt 0x11) ;;
  buf <~ bytearray_setitem buf 2 (PyInt 0xFF) ;;
  buf <~ bytearray_setitem buf 3 (PyInt 0x02) ;;
  buf <~ bytearray_setitem buf 4 (PyInt 0x3A) ;;
  buf <~ bytearray_setitem buf 5 channel ;;
  buf <~ bytearray_setitem buf 6 mode ;;
  c0 <~ py_getitem color 0 ;;
  buf <~ bytearray_setitem buf 7 c0 ;;
  c1 <~ py_getitem color 1 ;;
  buf <~ bytearray_setitem buf 8 c1 ;;
  c2 <~ py_getitem color 2 ;;
  buf <~ bytearray_setitem buf 9 c2 ;;
  if py_eq mode (PyInt 0x01) then bytearray_setitem buf 10 (PyInt 0x02)
  else Return buf.

(** Lines 168-171 of [set_color] on their own: the three transport calls
    for a finished buffer. *)
Definition round_trip (buf : list Z) : M unit :=
  device_call hid EvClear ;;;
  device_call hid (EvWrite buf) ;;;
  r <- device_call hid (EvRead (Z.of_nat _REPORT_LENGTH)) ;;
  lift (bytes r) ;;;
  ret tt.

End Methods.

End LogitechHero502.

Import LogitechHero502.
(** ** Vocabulary of the statements *)

(** Four hexadecimal digits, most significant first. *)
Definition hex4 (n : N) : string :=
  String (hex_digit (n / 4096))
    (String (hex_digit (n / 256 mod 16))
       (String (hex_digit (n / 16 mod 16))
          (String (hex_digit (n mod 16)) EmptyString))).

Fixpoint string_forall (p : ascii -> bool) (s : string) : bool :=
  match s with
  | EmptyString => true
  | String c s' => p c && string_forall p s'
  end.

Definition all_digits (ucd : unicode) (s : str) : Prop :=
  forallb (is_digit ucd) s = true.

Definition no_digit (ucd : unicode) (s : str) : Prop :=
  forallb (fun c => negb (is_digit ucd c)) s = true.

Definition digit_free_head (ucd : unicode) (s : str) : Prop :=
  match s with
  | [] => True
  | c :: _ => is_digit ucd c = false
  end.

(** [digit_runs ucd s runs]: [runs] are the maximal runs of decimal digits
    of [s], in order.  Each run is non-empty, preceded by a digit-free gap
    that starts where the previous run stopped, and followed by a
    non-digit or by the end of [s]. *)
Inductive digit_runs (ucd : unicode) : str -> list str -> Prop :=
| runs_none gap :
    no_digit ucd gap -> digit_runs ucd gap []
| runs_cons gap run rest runs :
    no_digit ucd gap -> run <> [] -> all_digits ucd run ->
    digit_free_head ucd rest -> digit_runs ucd rest runs ->
    digit_runs ucd (gap ++ run ++ rest) (run :: runs).

Definition is_byte (z : Z) : Prop := 0 <= z < 256.

(** The numeric channel codes of the wire format. *)
Definition channel_code (name : str) : option Z :=
  if str_eqb name "dpi" then Some 0
  else if str_eqb name "logo" then Some 1
  else None.

(** The numeric mode codes of the wire format. *)
Definition mode_code (name : str) : option Z :=
  if str_eqb name "off" then Some 0
  else if str_eqb name "fixed" then Some 1
  else if str_eqb name "breathing" then Some 2
  else if str_eqb name "rainbow" then Some 3
  else None.

(** The colour a request resolves to: the first entry, or black. *)
Definition resolved_color (colors : list (list pyval)) : list pyval :=
  match colors with
  | [] => [PyInt 0; PyInt 0; PyInt 0]
  | c :: _ => c
  end.

(** The 21-byte report for channel code [c], mode code [m] and colour
    [(r, g, b)]. *)
Definition report (c m r g b : Z) : list Z :=
  [0; 0x11; 0xFF; 0x02; 0x3A; c; m; r; g; b; (if m =? 1 then 0x02 else 0);
   0; 0; 0; 0; 0; 0; 0; 0; 0; 0].

(** The three transport calls that end [set_color], for a finished
    buffer. *)
Definition exchange (buf : list Z) : list event :=
  [EvClear; EvWrite buf; EvRead 20].

(** A transport that never fails and answers with bytes. *)
Definition well_behaved (hid : transport) : Prop :=
  forall tr e, exists r, hid tr e = Some r /\ Forall is_byte r.

(** A transport that answers every read with zero bytes. *)
Definition quiet : transport :=
  fun _ e =>
    match e with
    | EvRead n => Some (replicate (Z.to_nat n) 0)
    | _ => Some []
    end.

(** A transport on which every call fails. *)
Definition unplugged : transport := fun _ _ => None.

(** A transport whose first [n] calls work and whose later calls fail. *)
Definition fails_after (n : nat) : transport :=
  fun tr e => if (length tr <? n)%nat then quiet tr e else None.

(** A component that a bytearray slot refuses. *)
Definition not_a_byte (v : pyval) : Prop :=
  match v with
  | PyInt z => ~ is_byte z
  | _ => True
  end.

(** What a refused slot assignment or a short colour raises. *)
Definition refusal (e : exn) : Prop :=
  e = ValueError "byte must be in range(0, 256)" \/ e = TypeError \/ e = IndexError.

(** The device of the supported-devices table, at a macOS HID path. *)
Definition g502_hero : driver :=
  {| vendor_id := 0x046D;
     product_id := 0xC08B;
     address := "IOService:/AppleUSB/.../3/4";
     _data := None |}.

(** A few entries of the Unicode tables, for the examples: the capital
    letters of Latin-1 and the Arabic-Indic digits. *)
Definition latin1_lower (c : N) : N :=
  if ((0xC0 <=? c) && (c <=? 0xDE) && negb (c =? 0xD7))%N then (c + 32)%N
  else lower_ascii c.

Definition sample_unicode : unicode :=
  {| unicode_lower := map latin1_lower;
     unicode_decimal := fun c => ((0x660 <=? c) && (c <=? 0x669))%N |}.

(** "LOGO" with an acute accent on its last letter (U+00D3), and its
    lowercase form (U+00F3). *)
Definition LOGO_acute : str := [76; 79; 71; 0xD3]%N.
Definition logo_acute : str := [108; 111; 103; 0xF3]%N.

(** The same device at an address whose first number is written with the
    Arabic-Indic digit three (U+0663): "port", that digit, "/4". *)
Definition arabic_three : N := 0x663%N.

Definition g502_arabic_port : driver :=
  {| vendor_id := 0x046D;
     product_id := 0xC08B;
     address := "port" ++ [arabic_three] ++ "/4";
     _data := None |}.

(** The value of a lowercase hexadecimal digit. *)
Definition hex_digit_value (c : ascii) : option N :=
  let n := N_of_ascii c in
  if ((48 <=? n) && (n <=? 57))%N then Some (n - 48)%N
  else if ((97 <=? n) && (n <=? 102))%N then Some (n - 87)%N
  else None.

(** Reading lowercase hexadecimal digits, most significant first, on top
    of the value [v] read so far; [None] on any other character. *)
Fixpoint hex_value_from (v : N) (s : string) : option N :=
  match s with
  | EmptyString => Some v
  | String c s' =>
      match hex_digit_value c with
      | Some d => hex_value_from (16 * v + d) s'
      | None => None
      end
  end.

Definition hex_value (s : string) : option N := hex_value_from 0 s.

Definition is_hex_char (c : ascii) : bool :=
  match hex_digit_value c with
  | Some _ => true
  | None => false
  end.

(** The same class on code points. *)
Definition is_hex_code (c : N) : bool := is_hex_char (ascii_of_N c).

(** ** Sanity checks of the embedding on concrete values *)

Example codes_example : codes "dpi" = [100; 112; 105]%N.
Proof. reflexivity. Qed.

Example lower_mixed_case ucd : lower ucd "BrEaThInG" = "breathing".
Proof. reflexivity. Qed.

Example lower_keeps_other_characters ucd :
  lower ucd "Logo-1_[X]" = "logo-1_[x]".
Proof. reflexivity. Qed.

Example lower_alphabet ucd :
  lower ucd "ABCDEFGHIJKLMNOPQRSTUVWXYZ@[`{09"
  = "abcdefghijklmnopqrstuvwxyz@[`{09".
Proof. reflexivity. Qed.

Example lower_beyond_ascii : lower sample_unicode LOGO_acute = logo_acute.
Proof. reflexivity. Qed.

Example is_digit_table ucd :
  List.filter (is_digit ucd) (map N.of_nat (seq 0 128)) = "0123456789".
Proof. reflexivity. Qed.

Example hex_digit_table :
  map hex_digit [0; 1; 2; 3; 4; 5; 6; 7; 8; 9; 10; 11; 12; 13; 14; 15]%N
  = list_ascii_of_string "0123456789abcdef".
Proof. reflexivity. Qed.

Example format_04x_examples :
  map format_04x [0; 10; 255; 0x046D; 0xC08B; 0xFFFF; 0x12345]%N
  = ["0000"; "000a"; "00ff"; "046d"; "c08b"; "ffff"; "12345"]%string.
Proof. reflexivity. Qed.

Example join_examples :
  join "_" [] = [] /\ join "_" [codes "3"] = "3" /\
  join "_" [codes "3"; codes "4"; codes "05"] = "3_4_05".
Proof. repeat split. Qed.

Example findall_digits_example ucd :
  findall_digits ucd "usb-0000:00:14.0-2/input1"
  = [codes "0000"; codes "00"; codes "14"; codes "0"; codes "2"; codes "1"].
Proof. reflexivity. Qed.

Example findall_digits_beyond_ascii :
  findall_digits sample_unicode (address g502_arabic_port)
  = [[arabic_three]; codes "4"].
Proof. reflexivity. Qed.

Example connect_beyond_ascii :
  _data (connect sample_unicode g502_arabic_port)
  = Some [codes "vid046d_pidc08b"; "loc" ++ [arabic_three] ++ "_4"].
Proof. reflexivity. Qed.

Example set_color_unplugged ucd :
  set_color ucd unplugged "logo" "rainbow" [] PyNone (@nil (str * pyval)) []
  = (Raise OSError, [EvClear]).
Proof. reflexivity. Qed.

Example set_color_beyond_ascii :
  set_color sample_unicode quiet LOGO_acute "fixed" [] PyNone
    (@nil (str * pyval)) []
  = (Raise (ValueError ("Channel " ++ logo_acute
                        ++ " invalid, must be one of ("
                        ++ quoted "dpi" ++ ", " ++ quoted "logo" ++ ")")),
     []).
Proof. reflexivity. Qed.

(** ** Text *)

Lemma str_eqb_eq a b : str_eqb a b = true <-> a = b.
Proof.
  revert b. induction a as [|x a IH]; intros [|y b]; simpl;
    try (split; (reflexivity || discriminate)).
  rewrite andb_true_iff, N.eqb_eq, IH.
  split; [intros [-> ->]; reflexivity | intros [= -> ->]; auto].
Qed.

Lemma str_eqb_neq a b : str_eqb a b = false <-> a <> b.
Proof.
  rewrite <- str_eqb_eq. destruct (str_eqb a b); split; congruence.
Qed.

Lemma codes_inj s t : codes s = codes t -> s = t.
Proof.
  unfold codes. intros E.
  rewrite <- (string_of_list_ascii_of_string s),
    <- (string_of_list_ascii_of_string t).
  f_equal. revert E.
  generalize (list_ascii_of_string s), (list_ascii_of_string t).
  induction l as [|a l IH]; intros [|b l']; simpl; try discriminate;
    [reflexivity|].
  intros [= Hab E]. f_equal; [|by apply IH].
  rewrite <- (ascii_N_embedding a), <- (ascii_N_embedding b). congruence.
Qed.

Lemma codes_forall p s :
  string_forall p s = true ->
  forallb (fun c => p (ascii_of_N c)) (codes s) = true.
Proof.
  unfold codes. induction s as [|a s IH]; simpl; [reflexivity|].
  intros [Ha Hs]%andb_true_iff. rewrite ascii_N_embedding, Ha. auto.
Qed.

(** Splitting a string into a prefix of characters of one class and a rest
    that does not start with such a character is unique. *)
Lemma class_prefix_unique (p : N -> bool) (a a' t t' : str) :
  forallb p a = true -> forallb p a' = true ->
  match t with [] => True | c :: _ => p c = false end ->
  match t' with [] => True | c :: _ => p c = false end ->
  a ++ t = a' ++ t' -> a = a' /\ t = t'.
Proof.
  revert a'. induction a as [|c a IH]; intros [|c' a'] Ha Ha' Ht Ht'; simpl in *.
  - auto.
  - intros ->. apply andb_true_iff in Ha' as [Hc _]. congruence.
  - intros <-. apply andb_true_iff in Ha as [Hc _]. congruence.
  - intros [= -> E].
    apply andb_true_iff in Ha as [_ Ha]. apply andb_true_iff in Ha' as [_ Ha'].
    destruct (IH a' Ha Ha' Ht Ht' E) as [-> ->]. auto.
Qed.

(** ** The digit runs found by the scan *)

Section DigitRuns.

Variable ucd : unicode.

Lemma all_digits_snoc run c :
  all_digits ucd run -> is_digit ucd c = true -> all_digits ucd (run ++ [c]).
Proof.
  unfold all_digits. intros Hrun Hc.
  rewrite forallb_app, Hrun. simpl. by rewrite Hc.
Qed.

Lemma flush_nonempty run : run <> [] -> flush run = [run].
Proof. destruct run; [congruence | reflexivity]. Qed.

Lemma scan_gap gap s :
  no_digit ucd gap -> scan_digits ucd (gap ++ s) [] = scan_digits ucd s [].
Proof.
  unfold no_digit. induction gap as [|c gap IH]; simpl; [reflexivity|].
  intros [Hc Hgap]%andb_true_iff. apply negb_true_iff in Hc. rewrite Hc. auto.
Qed.

Lemma scan_run run rest acc :
  all_digits ucd run -> digit_free_head ucd rest ->
  scan_digits ucd (run ++ rest) acc
  = flush (acc ++ run) ++ scan_digits ucd rest [].
Proof.
  unfold all_digits. revert acc.
  induction run as [|d run IH]; intros acc Hrun Hrest; simpl.
  - rewrite app_nil_r. destruct rest as [|c rest]; simpl.
    + by rewrite app_nil_r.
    + simpl in Hrest. rewrite Hrest. reflexivity.
  - simpl in Hrun. apply andb_true_iff in Hrun as [Hd Hrun]. rewrite Hd.
    rewrite IH by assumption. by rewrite <- app_assoc.
Qed.

(** The runs of a string are unique: they are what the scan returns. *)
Lemma digit_runs_findall s runs :
  digit_runs ucd s runs -> findall_digits ucd s = runs.
Proof.
  unfold findall_digits.
  induction 1 as [gap Hgap | gap run rest runs Hgap Hne Hrun Hrest _ IH].
  - rewrite <- (app_nil_r gap). by rewrite scan_gap.
  - rewrite scan_gap, scan_run by assumption. simpl.
    rewrite flush_nonempty by assumption. simpl. by rewrite IH.
Qed.

Lemma digit_runs_skip c s runs :
  is_digit ucd c = false -> digit_runs ucd s runs ->
  digit_runs ucd (c :: s) runs.
Proof.
  intros Hc [gap Hgap | gap run rest runs' Hgap Hne Hrun Hrest Hruns].
  - apply runs_none. unfold no_digit in *. simpl. by rewrite Hc, Hgap.
  - apply (runs_cons ucd (c :: gap)); try assumption.
    unfold no_digit in *. simpl. by rewrite Hc, Hgap.
Qed.

Lemma scan_digits_runs s run :
  all_digits ucd run -> digit_runs ucd (run ++ s) (scan_digits ucd s run).
Proof.
  revert run. induction s as [|c s IH]; intros run Hrun; simpl.
  - destruct run as [|d run]; [by apply runs_none|].
    apply (runs_cons ucd [] (d :: run) [] []); try done.
    by apply runs_none.
  - destruct (is_digit ucd c) eqn:Hc.
    + change (c :: s) with ([c] ++ s). rewrite app_assoc.
      apply IH. by apply all_digits_snoc.
    + pose proof (digit_runs_skip c s _ Hc (IH [] eq_refl)) as Hs.
      destruct run as [|d run]; [exact Hs|].
      by apply (runs_cons ucd [] (d :: run) (c :: s)).
Qed.

(** Every string has runs: the scan is total and returns them. *)
Lemma findall_digits_runs s : digit_runs ucd s (findall_digits ucd s).
Proof. apply (scan_digits_runs s []). reflexivity. Qed.

Lemma findall_no_digit s : no_digit ucd s -> findall_digits ucd s = [].
Proof. intros H. apply digit_runs_findall. by apply runs_none. Qed.

End DigitRuns.

(** ** Hexadecimal formatting *)

Lemma append_cons c s t : String c s +:+ t = String c (s +:+ t).
Proof. reflexivity. Qed.

Lemma append_nil_l s : EmptyString +:+ s = s.
Proof. reflexivity. Qed.

Lemma append_nil_r s : s +:+ EmptyString = s.
Proof.
  induction s as [|c s IH]; rewrite ?append_cons, ?append_nil_l; congruence.
Qed.

Lemma append_assoc s t u : (s +:+ t) +:+ u = s +:+ t +:+ u.
Proof.
  induction s as [|c s IH]; rewrite ?append_cons, ?append_nil_l; congruence.
Qed.

Ltac div_lia := zify; Z.to_euclidean_division_equations; lia.

Lemma hex_digits_last fuel n acc :
  (n < 16)%N -> hex_digits (S fuel) n acc = String (hex_digit n) acc.
Proof.
  intros Hn. simpl.
  rewrite N.div_small, N.mod_small by assumption. reflexivity.
Qed.

Lemma hex_digits_step fuel n acc :
  (16 <= n)%N ->
  hex_digits (S fuel) n acc
  = hex_digits fuel (n / 16) (String (hex_digit (n mod 16)) acc).
Proof.
  intros Hn. simpl.
  destruct (N.eqb_spec (n / 16) 0) as [E|E]; [|reflexivity].
  exfalso. apply N.div_small_iff in E; lia.
Qed.

(** The fuel of [format_x] exceeds the number of digits. *)
Lemma size_above n k : (2 ^ k <= n)%N -> (N.to_nat k < N.to_nat (N.size n))%nat.
Proof.
  intros Hk. pose proof (N.size_gt n) as Hs.
  destruct (N.le_gt_cases (N.size n) k) as [Hle|Hgt]; [|lia].
  apply (N.pow_le_mono_r 2) in Hle; lia.
Qed.

Lemma format_04x_hex4 n : (n < 65536)%N -> format_04x n = hex4 n.
Proof.
  intros Hn. unfold format_04x, format_x, hex4.
  destruct (N.lt_ge_cases n 16) as [H1|H1].
  { rewrite hex_digits_last by assumption.
    replace (n / 4096)%N with 0%N by div_lia.
    replace (n / 256)%N with 0%N by div_lia.
    replace (n / 16)%N with 0%N by div_lia.
    replace (n mod 16)%N with n by div_lia. reflexivity. }
  pose proof (size_above n 4 H1) as F1.
  destruct (N.lt_ge_cases n 256) as [H2|H2].
  { destruct (N.to_nat (N.size n)) as [|fuel]; [lia|].
    rewrite hex_digits_step, hex_digits_last by div_lia.
    replace (n / 4096)%N with 0%N by div_lia.
    replace (n / 256)%N with 0%N by div_lia.
    replace (n / 16 mod 16)%N with (n / 16)%N by div_lia. reflexivity. }
  pose proof (size_above n 8 H2) as F2.
  destruct (N.lt_ge_cases n 4096) as [H3|H3].
  { destruct (N.to_nat (N.size n)) as [|[|fuel]]; [lia..|].
    rewrite !hex_digits_step, hex_digits_last by div_lia.
    replace (n / 4096)%N with 0%N by div_lia.
    replace (n / 16 / 16)%N with (n / 256)%N by div_lia.
    replace (n / 256 mod 16)%N with (n / 256)%N by div_lia. reflexivity. }
  pose proof (size_above n 12 H3) as F3.
  destruct (N.to_nat (N.size n)) as [|[|[|fuel]]]; [lia..|].
  rewrite !hex_digits_step, hex_digits_last by div_lia.
  replace (n / 16 / 16 / 16)%N with (n / 4096)%N by div_lia.
  replace (n / 16 / 16)%N with (n / 256)%N by div_lia.
  reflexivity.
Qed.

(** ** The storage key *)

(** C5. For 16-bit vendor and product ids, [connect] stores the pair made of
    "vid" + four zero-padded lowercase hex digits of the vendor id + "_pid"
    + the same for the product id, and of "loc" followed by the maximal
    runs of decimal digits of the address, in order, joined with "_".
    Such runs always exist; an address without digits gives the bare
    "loc"; [connect] never fails.  Vendor 0x046D, product 0xC08B at
    "IOService:/AppleUSB/.../3/4" gives "vid046d_pidc08b" and "loc3_4".
    The address is any string, its digits any Unicode decimal digits. *)
Theorem connect_storage_key :
  (forall (ucd : unicode) (self : driver),
      (vendor_id self < 65536)%N ->
      (product_id self < 65536)%N ->
      (exists runs, digit_runs ucd (address self) runs) /\
      (forall runs,
          digit_runs ucd (address self) runs ->
          _data (connect ucd self)
          = Some ["vid" ++ hex4 (vendor_id self)
                  ++ "_pid" ++ hex4 (product_id self);
                  "loc" ++ join "_" runs]) /\
      (no_digit ucd (address self) ->
       _data (connect ucd self)
       = Some ["vid" ++ hex4 (vendor_id self)
               ++ "_pid" ++ hex4 (product_id self);
               codes "loc"])) /\
  (forall ucd : unicode,
      _data (connect ucd g502_hero)
      = Some [codes "vid046d_pidc08b"; codes "loc3_4"]).
Proof.
  split; [|reflexivity].
  intros ucd self Hv Hp.
  assert (Hkey : forall runs, digit_runs ucd (address self) runs ->
    _data (connect ucd self)
    = Some ["vid" ++ hex4 (vendor_id self)
            ++ "_pid" ++ hex4 (product_id self);
            "loc" ++ join "_" runs]).
  { intros runs Hruns. unfold connect. simpl _data.
    rewrite (digit_runs_findall _ _ _ Hruns).
    by rewrite !format_04x_hex4 by assumption. }
  split; [exists (findall_digits ucd (address self)); apply findall_digits_runs|].
  split; [exact Hkey|].
  intros Hnone. rewrite (Hkey []) by (by apply runs_none).
  simpl join. by rewrite app_nil_r.
Qed.

Lemma connect_storage_key_witness :
  (vendor_id g502_arabic_port < 65536)%N /\
  (product_id g502_arabic_port < 65536)%N /\
  digit_runs sample_unicode (address g502_arabic_port)
    [[arabic_three]; codes "4"] /\
  _data (connect sample_unicode g502_arabic_port)
  = Some ["vid" ++ hex4 0x046D ++ "_pid" ++ hex4 0xC08B;
          "loc" ++ join "_" [[arabic_three]; codes "4"]].
Proof.
  assert (Hv : (vendor_id g502_arabic_port < 65536)%N) by reflexivity.
  assert (Hp : (product_id g502_arabic_port < 65536)%N) by reflexivity.
  assert (Hruns : digit_runs sample_unicode (address g502_arabic_port)
                    [[arabic_three]; codes "4"])
    by exact (findall_digits_runs sample_unicode (address g502_arabic_port)).
  split; [exact Hv|]. split; [exact Hp|]. split; [exact Hruns|].
  exact (proj1 (proj2 (proj1 connect_storage_key sample_unicode
                         g502_arabic_port Hv Hp)) _ Hruns).
Defined.

(** ** The buffer *)

Lemma channel_code_Some name c :
  channel_code name = Some c ->
  (name = "dpi" /\ c = 0) \/ (name = "logo" /\ c = 1).
Proof.
  unfold channel_code.
  destruct (str_eqb name "dpi") eqn:E1;
    [apply str_eqb_eq in E1; intros [= <-]; auto|].
  destruct (str_eqb name "logo") eqn:E2;
    [apply str_eqb_eq in E2; intros [= <-]; auto|].
  discriminate.
Qed.

Lemma mode_code_Some name m :
  mode_code name = Some m ->
  (name = "off" /\ m = 0) \/ (name = "fixed" /\ m = 1) \/
  (name = "breathing" /\ m = 2) \/ (name = "rainbow" /\ m = 3).
Proof.
  unfold mode_code.
  repeat (match goal with
          | |- context [str_eqb name ?k] =>
              let E := fresh "E" in
              destruct (str_eqb name k) eqn:E;
              [apply str_eqb_eq in E; intros [= <-]; auto 6|]
          end).
  discriminate.
Qed.

Lemma channel_code_byte name c : channel_code name = Some c -> is_byte c.
Proof.
  intros H. apply channel_code_Some in H. unfold is_byte.
  destruct H as [[_ ->]|[_ ->]]; lia.
Qed.

Lemma mode_code_byte name m : mode_code name = Some m -> is_byte m.
Proof.
  intros H. apply mode_code_Some in H. unfold is_byte.
  destruct H as [[_ ->]|[[_ ->]|[[_ ->]|[_ ->]]]]; lia.
Qed.

Lemma is_byte_test z : is_byte z -> (0 <=? z) && (z <? 256) = true.
Proof. unfold is_byte. intros. apply andb_true_iff. lia. Qed.

Lemma not_byte_test z : ~ is_byte z -> (0 <=? z) && (z <? 256) = false.
Proof. unfold is_byte. intros. apply andb_false_iff. lia. Qed.

Lemma fill_report_ok c m r g b rest :
  is_byte c -> is_byte m -> is_byte r -> is_byte g -> is_byte b ->
  fill_report (PyInt c) (PyInt m) (PyInt r :: PyInt g :: PyInt b :: rest)
  = Return (report c m r g b).
Proof.
  intros Hc Hm Hr Hg Hb.
  apply is_byte_test in Hc, Hm, Hr, Hg, Hb.
  unfold fill_report, report, bytearray_setitem, rbind. cbn.
  rewrite Hc, Hm, Hr, Hg, Hb. cbn.
  destruct (m =? 1); reflexivity.
Qed.

(** Whenever the buffer is not finished, the exception is one of those. *)
Lemma fill_report_raises c m color e :
  fill_report (PyInt c) (PyInt m) color = Raise e -> refusal e.
Proof.
  unfold fill_report, bytearray_setitem, py_getitem, rbind, refusal. cbn.
  destruct ((0 <=? c) && (c <? 256)); [|intros [= <-]; auto]; cbn.
  destruct ((0 <=? m) && (m <? 256)); [|intros [= <-]; auto]; cbn.
  destruct color as [|v0 color]; [intros [= <-]; auto|]. cbn.
  destruct v0 as [z0| |]; [|intros [= <-]; auto..].
  destruct ((0 <=? z0) && (z0 <? 256)); [|intros [= <-]; auto]. cbn.
  destruct color as [|v1 color]; [intros [= <-]; auto|]. cbn.
  destruct v1 as [z1| |]; [|intros [= <-]; auto..].
  destruct ((0 <=? z1) && (z1 <? 256)); [|intros [= <-]; auto]. cbn.
  destruct color as [|v2 color]; [intros [= <-]; auto|]. cbn.
  destruct v2 as [z2| |]; [|intros [= <-]; auto..].
  destruct ((0 <=? z2) && (z2 <? 256)); [|intros [= <-]; auto]. cbn.
  destruct (m =? 1); discriminate.
Qed.

(** A missing or refused component among the first three stops the
    construction. *)
Lemma fill_report_refuses c m color i :
  (i < 3)%nat ->
  match color !! i with Some v => not_a_byte v | None => True end ->
  exists e, fill_report (PyInt c) (PyInt m) color = Raise e.
Proof.
  intros Hi Hbad.
  unfold fill_report, bytearray_setitem, rbind. cbn.
  destruct ((0 <=? c) && (c <? 256)); [|eauto]; cbn.
  destruct ((0 <=? m) && (m <? 256)); [|eauto]; cbn.
  destruct color as [|v0 color]; [eauto|]. cbn.
  destruct v0 as [z0| |]; [|eauto..].
  destruct ((0 <=? z0) && (z0 <? 256)) eqn:E0; [|eauto]. cbn.
  destruct color as [|v1 color]; [eauto|]. cbn.
  destruct v1 as [z1| |]; [|eauto..].
  destruct ((0 <=? z1) && (z1 <? 256)) eqn:E1; [|eauto]. cbn.
  destruct color as [|v2 color]; [eauto|]. cbn.
  destruct v2 as [z2| |]; [|eauto..].
  destruct ((0 <=? z2) && (z2 <? 256)) eqn:E2; [|eauto]. cbn.
  exfalso.
  destruct i as [|[|[|i]]]; [ | | | lia]; cbn in Hbad;
    apply not_byte_test in Hbad; congruence.
Qed.

(** ** The transport calls *)

Lemma bytes_ok l : Forall is_byte l -> bytes l = Return l.
Proof.
  intros H. unfold bytes.
  replace (forallb _ l) with true; [reflexivity|].
  symmetry. apply forallb_forall. intros z Hz.
  apply is_byte_test. rewrite Forall_forall in H. apply H.
  by apply list_elem_of_In.
Qed.

Lemma quiet_well_behaved : well_behaved quiet.
Proof.
  intros tr [| data | n]; simpl; eexists; (split; [reflexivity|]).
  - constructor.
  - constructor.
  - apply Forall_replicate. unfold is_byte. lia.
Qed.

(** On a transport that works, the three calls are made in order and the
    answer is dropped. *)
Lemma round_trip_well_behaved hid buf tr :
  well_behaved hid ->
  round_trip hid buf tr = (Return tt, tr ++ exchange buf).
Proof.
  intros H. unfold round_trip, bind, device_call, lift, ret, exchange.
  destruct (H tr EvClear) as (r1 & -> & _).
  destruct (H (tr ++ [EvClear]) (EvWrite buf)) as (r2 & -> & _).
  destruct (H ((tr ++ [EvClear]) ++ [EvWrite buf]) (EvRead (Z.of_nat _REPORT_LENGTH)))
    as (r3 & -> & Hr3).
  rewrite (bytes_ok _ Hr3). by rewrite <- !app_assoc.
Qed.

(** On any transport, the calls made are a non-empty prefix of the three. *)
Lemma round_trip_prefix hid buf tr :
  exists res k,
    (1 <= k <= 3)%nat /\ round_trip hid buf tr = (res, tr ++ take k (exchange buf)).
Proof.
  unfold round_trip, bind, device_call, lift, ret, exchange.
  destruct (hid tr EvClear) as [r1|]; [|exists (Raise OSError), 1%nat; split; [lia|reflexivity]].
  destruct (hid (tr ++ [EvClear]) (EvWrite buf)) as [r2|];
    [|exists (Raise OSError), 2%nat; split; [lia|by rewrite <- !app_assoc]].
  destruct (hid ((tr ++ [EvClear]) ++ [EvWrite buf]) (EvRead (Z.of_nat _REPORT_LENGTH)))
    as [r3|]; [|exists (Raise OSError), 3%nat; split; [lia|by rewrite <- !app_assoc]].
  destruct (bytes r3) as [l|e];
    [exists (Return tt), 3%nat | exists (Raise e), 3%nat];
    (split; [lia|by rewrite <- !app_assoc]).
Qed.

(** ** [set_color] as the composition of its two halves *)

(** Replaces the literals of the goal by their code points. *)
Ltac eval_codes :=
  repeat match goal with
         | |- context [codes ?s] =>
             let v := eval vm_compute in (codes s) in
             change (codes s) with v
         end.

Ltac case_result :=
  match goal with
  | |- context [bytearray_setitem ?b ?i ?v] => destruct (bytearray_setitem b i v)
  | |- context [py_getitem ?c ?i] => destruct (py_getitem c i)
  end.

Section SetColor.

Context {U K : Type}.
Variable ucd : unicode.
Variable hid : transport.
Variables channel mode : str.
Variable colors : list (list pyval).
Variable unsafe : U.
Variable kwargs : K.

(** The call depends on the two names only through their lowercase
    forms. *)
Lemma set_color_through_lower channel' mode' tr :
  lower ucd channel = lower ucd channel' ->
  lower ucd mode = lower ucd mode' ->
  set_color ucd hid channel mode colors unsafe kwargs tr
  = set_color ucd hid channel' mode' colors unsafe kwargs tr.
Proof. intros Ec Em. unfold set_color. by rewrite Ec, Em. Qed.

Lemma set_color_bad_channel tr :
  lower ucd channel <> "dpi" -> lower ucd channel <> "logo" ->
  set_color ucd hid channel mode colors unsafe kwargs tr
  = (Raise (channel_error (lower ucd channel)), tr).
Proof.
  intros H1 H2. apply str_eqb_neq in H1, H2.
  unfold set_color, bind. by rewrite H1, H2.
Qed.

Lemma set_color_bad_mode tr :
  lower ucd channel = "dpi" \/ lower ucd channel = "logo" ->
  lower ucd mode <> "off" -> lower ucd mode <> "fixed" ->
  lower ucd mode <> "breathing" -> lower ucd mode <> "rainbow" ->
  set_color ucd hid channel mode colors unsafe kwargs tr
  = (Raise (mode_error (lower ucd mode)), tr).
Proof.
  intros Hc H1 H2 H3 H4. apply str_eqb_neq in H1, H2, H3, H4.
  unfold set_color, bind. rewrite H1, H2, H3, H4.
  by destruct Hc as [-> | ->].
Qed.

(** With both names known, the call builds the buffer and, only if that
    succeeds, talks to the transport. *)
Lemma set_color_valid_names c m tr :
  channel_code (lower ucd channel) = Some c ->
  mode_code (lower ucd mode) = Some m ->
  set_color ucd hid channel mode colors unsafe kwargs tr =
  match fill_report (PyInt c) (PyInt m) (resolved_color colors) with
  | Return buf => round_trip hid buf tr
  | Raise e => (Raise e, tr)
  end.
Proof.
  intros Hc Hm.
  apply channel_code_Some in Hc. apply mode_code_Some in Hm.
  unfold set_color.
  destruct Hc as [[-> ->]|[-> ->]];
    destruct Hm as [[-> ->]|[[-> ->]|[[-> ->]|[-> ->]]]].
  all: destruct colors as [|c0 cs]; eval_codes;
    cbn -[round_trip bytearray_setitem py_getitem bytearray].
  all: unfold fill_report, bind, lift, rbind.
  all: cbn -[round_trip bytearray_setitem py_getitem bytearray].
  all: repeat case_result; reflexivity.
Qed.

Lemma set_color_accepts c m r g b rest tr :
  channel_code (lower ucd channel) = Some c ->
  mode_code (lower ucd mode) = Some m ->
  resolved_color colors = PyInt r :: PyInt g :: PyInt b :: rest ->
  is_byte r -> is_byte g -> is_byte b ->
  set_color ucd hid channel mode colors unsafe kwargs tr
  = round_trip hid (report c m r g b) tr.
Proof.
  intros Hc Hm Hcol Hr Hg Hb.
  rewrite (set_color_valid_names c m) by assumption.
  rewrite Hcol, fill_report_ok; eauto using channel_code_byte, mode_code_byte.
Qed.

End SetColor.

Lemma channel_code_None name :
  channel_code name = None -> name <> "dpi" /\ name <> "logo".
Proof.
  unfold channel_code.
  destruct (str_eqb name "dpi") eqn:E1; [discriminate|].
  destruct (str_eqb name "logo") eqn:E2; [discriminate|].
  apply str_eqb_neq in E1, E2. auto.
Qed.

Lemma mode_code_None name :
  mode_code name = None ->
  name <> "off" /\ name <> "fixed" /\ name <> "breathing" /\ name <> "rainbow".
Proof.
  unfold mode_code.
  destruct (str_eqb name "off") eqn:E1; [discriminate|].
  destruct (str_eqb name "fixed") eqn:E2; [discriminate|].
  destruct (str_eqb name "breathing") eqn:E3; [discriminate|].
  destruct (str_eqb name "rainbow") eqn:E4; [discriminate|].
  apply str_eqb_neq in E1, E2, E3, E4. auto.
Qed.

(** What the transport half can return. *)
Lemma round_trip_outcome hid buf tr :
  fst (round_trip hid buf tr) = Return tt \/
  fst (round_trip hid buf tr) = Raise OSError \/
  fst (round_trip hid buf tr) = Raise (ValueError "bytes must be in range(0, 256)").
Proof.
  unfold round_trip, bind, device_call, lift, ret.
  destruct (hid tr EvClear); [|auto].
  destruct (hid (tr ++ [EvClear]) (EvWrite buf)); [|auto].
  destruct (hid _ (EvRead _)) as [r|]; [|auto].
  unfold bytes. destruct (forallb _ r); auto.
Qed.

(** No path of [set_color] reaches the colour-count error. *)
Lemma set_color_never_counts {U K : Type} ucd hid channel mode colors
    (unsafe : U) (kwargs : K) tr :
  fst (set_color ucd hid channel mode colors unsafe kwargs tr)
  <> Raise (ValueError "One color must be given").
Proof.
  destruct (channel_code (lower ucd channel)) as [c|] eqn:Hc.
  - destruct (mode_code (lower ucd mode)) as [m|] eqn:Hm.
    + rewrite (set_color_valid_names _ _ _ _ _ _ _ c m) by assumption.
      destruct (fill_report _ _ _) as [buf|e] eqn:E.
      * destruct (round_trip_outcome hid buf tr) as [-> | [-> | ->]]; discriminate.
      * apply fill_report_raises in E. simpl.
        destruct E as [-> | [-> | ->]]; discriminate.
    + apply mode_code_None in Hm as (H1 & H2 & H3 & H4).
      apply channel_code_Some in Hc.
      rewrite set_color_bad_mode by (assumption || tauto).
      simpl. unfold mode_error. discriminate.
  - apply channel_code_None in Hc as (H1 & H2).
    rewrite set_color_bad_channel by assumption.
    simpl. unfold channel_error. discriminate.
Qed.

(** ** The claims *)

(** C1 (the code departs from it).  The claim: with mode "fixed" or
    "breathing" and a number of colours other than one, [set_color] fails
    with an invalid-argument error before any device I/O.  In the source
    the count test runs after [mode] has been rebound to its numeric code
    and compares that code with the strings, so it never fires: no call
    raises "One color must be given"; "breathing" with two colours sends a
    report carrying the first one, and "fixed" with none sends black. *)
Theorem set_color_count_check_never_fires :
  (forall (U K : Type) ucd hid channel mode colors (unsafe : U) (kwargs : K) tr,
      fst (set_color ucd hid channel mode colors unsafe kwargs tr)
      <> Raise (ValueError "One color must be given")) /\
  (forall ucd,
      set_color ucd quiet "logo" "breathing"
        [[PyInt 1; PyInt 2; PyInt 3]; [PyInt 4; PyInt 5; PyInt 6]]
        PyNone (@nil (str * pyval)) []
      = (Return tt,
         [EvClear;
          EvWrite [0; 0x11; 0xFF; 0x02; 0x3A; 1; 2; 1; 2; 3; 0;
                   0; 0; 0; 0; 0; 0; 0; 0; 0; 0];
          EvRead 20])) /\
  (forall ucd,
      set_color ucd quiet "dpi" "fixed" [] PyNone (@nil (str * pyval)) []
      = (Return tt,
         [EvClear;
          EvWrite [0; 0x11; 0xFF; 0x02; 0x3A; 0; 1; 0; 0; 0; 0x02;
                   0; 0; 0; 0; 0; 0; 0; 0; 0; 0];
          EvRead 20])).
Proof.
  split; [intros; apply set_color_never_counts|].
  split; reflexivity.
Qed.

(** *** Requests that pass validation

    A valid request: the lowercased channel and mode have codes [c] and
    [m], and the colour it resolves to is a triple of bytes [(r, g, b)]. *)

Section ValidRequest.

Context {U K : Type}.
Variable ucd : unicode.
Variables channel mode : str.
Variable colors : list (list pyval).
Variable unsafe : U.
Variable kwargs : K.
Variables c m r g b : Z.

Hypothesis channel_ok : channel_code (lower ucd channel) = Some c.
Hypothesis mode_ok : mode_code (lower ucd mode) = Some m.
Hypothesis color_ok : resolved_color colors = [PyInt r; PyInt g; PyInt b].
Hypothesis r_ok : is_byte r.
Hypothesis g_ok : is_byte g.
Hypothesis b_ok : is_byte b.

(** The call is the transport half applied to the report of the request. *)
Lemma set_color_sends hid tr :
  (exists res k,
      (1 <= k <= 3)%nat /\
      set_color ucd hid channel mode colors unsafe kwargs tr
      = (res, tr ++ take k (exchange (report c m r g b)))) /\
  (well_behaved hid ->
   set_color ucd hid channel mode colors unsafe kwargs tr
   = (Return tt, tr ++ exchange (report c m r g b))).
Proof.
  rewrite (set_color_accepts ucd hid _ _ _ _ _ c m r g b []) by assumption.
  split; [apply round_trip_prefix | apply round_trip_well_behaved].
Qed.

(** C3. For a valid request the buffer built and written has exactly 21
    bytes, and its offsets 1-4 hold 0x11, 0xFF, 0x02, 0x3A. *)
Theorem set_color_report_header :
  exists buf : list Z,
    length buf = 21%nat /\
    buf !! 1%nat = Some 0x11 /\ buf !! 2%nat = Some 0xFF /\
    buf !! 3%nat = Some 0x02 /\ buf !! 4%nat = Some 0x3A /\
    forall hid tr,
      (exists res k,
          (1 <= k <= 3)%nat /\
          set_color ucd hid channel mode colors unsafe kwargs tr
          = (res, tr ++ take k [EvClear; EvWrite buf; EvRead 20])) /\
      (well_behaved hid ->
       set_color ucd hid channel mode colors unsafe kwargs tr
       = (Return tt, tr ++ [EvClear; EvWrite buf; EvRead 20])).
Proof.
  exists (report c m r g b).
  repeat (split; [reflexivity|]).
  intros hid tr. apply (set_color_sends hid tr).
Qed.

(** C6. For a valid request the transport sees, in this order, the discard
    of the enqueued reports, one write of the finished 21-byte buffer, and
    one read of 20 bytes.  The buffer does not depend on the transport: it
    is complete before the first call.  Whatever the transport does, the
    calls made are a prefix of these three (a failing call ends the
    sequence); on a working transport all three are made and the call
    returns, whatever bytes were read. *)
Theorem set_color_transport_order :
  length (report c m r g b) = 21%nat /\
  forall hid tr,
    (exists res k,
        (1 <= k <= 3)%nat /\
        set_color ucd hid channel mode colors unsafe kwargs tr
        = (res,
           tr ++ take k [EvClear; EvWrite (report c m r g b); EvRead 20])) /\
    (well_behaved hid ->
     set_color ucd hid channel mode colors unsafe kwargs tr
     = (Return tt, tr ++ [EvClear; EvWrite (report c m r g b); EvRead 20])).
Proof.
  split; [reflexivity|].
  intros hid tr. apply (set_color_sends hid tr).
Qed.

End ValidRequest.

(** C2. For a valid request the report holds the channel code at offset 5,
    the mode code at offset 6, the red, green and blue of the resolved
    colour at offsets 7-9, 0x02 at offset 10 exactly when the mode code is
    1, and zero at every other offset outside the header.  It is the only
    buffer the call can hand to the transport, and on a working transport
    it is written.  In particular ("DPI", "FIXED", [(10, 20, 30)]) gives
    0x00, 0x01, 10, 20, 30, 0x02 at offsets 5-10, and ("logo", "off", [])
    gives 0x01, 0x00, 0, 0, 0 at offsets 5-9 with offset 10 left at 0. *)
Theorem set_color_report_layout :
  (forall (U K : Type) ucd channel mode colors (unsafe : U) (kwargs : K)
          c m r g b hid tr,
      channel_code (lower ucd channel) = Some c ->
      mode_code (lower ucd mode) = Some m ->
      resolved_color colors = [PyInt r; PyInt g; PyInt b] ->
      is_byte r -> is_byte g -> is_byte b ->
      let buf := [0; 0x11; 0xFF; 0x02; 0x3A; c; m; r; g; b;
                  (if m =? 1 then 0x02 else 0);
                  0; 0; 0; 0; 0; 0; 0; 0; 0; 0] in
      (exists res k,
          (1 <= k <= 3)%nat /\
          set_color ucd hid channel mode colors unsafe kwargs tr
          = (res, tr ++ take k [EvClear; EvWrite buf; EvRead 20])) /\
      (well_behaved hid ->
       set_color ucd hid channel mode colors unsafe kwargs tr
       = (Return tt, tr ++ [EvClear; EvWrite buf; EvRead 20]))) /\
  (forall (U K : Type) ucd (unsafe : U) (kwargs : K) hid tr,
      well_behaved hid ->
      set_color ucd hid "DPI" "FIXED" [[PyInt 10; PyInt 20; PyInt 30]]
        unsafe kwargs tr
      = (Return tt,
         tr ++ [EvClear;
                EvWrite [0; 0x11; 0xFF; 0x02; 0x3A; 0x00; 0x01; 10; 20; 30; 0x02;
                         0; 0; 0; 0; 0; 0; 0; 0; 0; 0];
                EvRead 20])) /\
  (forall (U K : Type) ucd (unsafe : U) (kwargs : K) hid tr,
      well_behaved hid ->
      set_color ucd hid "logo" "off" [] unsafe kwargs tr
      = (Return tt,
         tr ++ [EvClear;
                EvWrite [0; 0x11; 0xFF; 0x02; 0x3A; 0x01; 0x00; 0; 0; 0; 0;
                         0; 0; 0; 0; 0; 0; 0; 0; 0; 0];
                EvRead 20])).
Proof.
  split; [|split].
  - intros U K ucd channel mode colors unsafe kwargs c m r g b hid tr
      Hc Hm Hcol Hr Hg Hb buf.
    by apply (set_color_sends ucd channel mode colors unsafe kwargs c m r g b).
  - intros U K ucd unsafe kwargs hid tr H.
    apply (set_color_sends ucd "DPI" "FIXED" _ unsafe kwargs 0 1 10 20 30);
      (reflexivity || assumption || (unfold is_byte; lia)).
  - intros U K ucd unsafe kwargs hid tr H.
    apply (set_color_sends ucd "logo" "off" _ unsafe kwargs 1 0 0 0 0);
      (reflexivity || assumption || (unfold is_byte; lia)).
Qed.

Lemma set_color_report_layout_witness :
  well_behaved quiet /\
  channel_code (lower sample_unicode "Logo") = Some 1 /\
  mode_code (lower sample_unicode "Breathing") = Some 2 /\
  set_color sample_unicode quiet "Logo" "Breathing" [[PyInt 255; PyInt 0; PyInt 128]]
    PyNone (@nil (str * pyval)) []
  = (Return tt,
     [EvClear;
      EvWrite [0; 0x11; 0xFF; 0x02; 0x3A; 1; 2; 255; 0; 128; 0;
               0; 0; 0; 0; 0; 0; 0; 0; 0; 0];
      EvRead 20]).
Proof.
  split; [exact quiet_well_behaved|].
  split; [reflexivity|]. split; [reflexivity|].
  refine (proj2 (proj1 set_color_report_layout _ _ sample_unicode "Logo" "Breathing"
                   [[PyInt 255; PyInt 0; PyInt 128]] PyNone [] 1 2 255 0 128
                   quiet [] eq_refl eq_refl eq_refl _ _ _)
            quiet_well_behaved);
    unfold is_byte; lia.
Defined.

Lemma set_color_report_header_witness :
  exists buf : list Z,
    length buf = 21%nat /\
    buf !! 1%nat = Some 0x11 /\ buf !! 2%nat = Some 0xFF /\
    buf !! 3%nat = Some 0x02 /\ buf !! 4%nat = Some 0x3A /\
    set_color sample_unicode quiet "dpi" "rainbow" [] PyNone (@nil (str * pyval)) []
    = (Return tt, [EvClear; EvWrite buf; EvRead 20]).
Proof.
  assert (Hz : is_byte 0) by (unfold is_byte; lia).
  destruct (set_color_report_header sample_unicode "dpi" "rainbow" [] PyNone
              (@nil (str * pyval)) 0 3 0 0 0
              eq_refl eq_refl eq_refl Hz Hz Hz)
    as (buf & Hlen & H1 & H2 & H3 & H4 & H).
  exists buf. repeat (split; [assumption|]).
  exact (proj2 (H quiet []) quiet_well_behaved).
Defined.

Lemma set_color_transport_order_witness :
  length (report 0 1 10 20 30) = 21%nat /\
  set_color sample_unicode unplugged "DPI" "FIXED" [[PyInt 10; PyInt 20; PyInt 30]]
    PyNone (@nil (str * pyval)) []
  = (Raise OSError, [EvClear]) /\
  set_color sample_unicode quiet "DPI" "FIXED" [[PyInt 10; PyInt 20; PyInt 30]]
    PyNone (@nil (str * pyval)) []
  = (Return tt, [EvClear; EvWrite (report 0 1 10 20 30); EvRead 20]).
Proof.
  assert (H10 : is_byte 10) by (unfold is_byte; lia).
  assert (H20 : is_byte 20) by (unfold is_byte; lia).
  assert (H30 : is_byte 30) by (unfold is_byte; lia).
  pose proof (set_color_transport_order sample_unicode "DPI" "FIXED"
                [[PyInt 10; PyInt 20; PyInt 30]] PyNone
                (@nil (str * pyval)) 0 1 10 20 30
                eq_refl eq_refl eq_refl H10 H20 H30) as [Hlen H].
  split; [exact Hlen|]. split; [reflexivity|].
  exact (proj2 (H quiet []) quiet_well_behaved).
Defined.

(** *** Rejected requests *)

(** C4. [set_color] works on the lowercased channel and mode: two calls
    whose channels have the same lowercase form, and whose modes have,
    behave alike.  A channel whose lowercase form is neither "dpi" nor
    "logo" raises [ValueError] with a message naming that form and both
    accepted names, whatever the mode is (the channel is checked first);
    with a known channel, a mode whose lowercase form is none of "off",
    "fixed", "breathing", "rainbow" raises [ValueError] naming that form
    and the four accepted names.  In both cases the transport is left
    untouched.  The names are any strings, lowercased as [str.lower]
    does. *)
Theorem set_color_rejects_unknown_names :
  forall (U K : Type) ucd hid channel mode colors (unsafe : U) (kwargs : K) tr,
    (forall channel' mode',
        lower ucd channel = lower ucd channel' ->
        lower ucd mode = lower ucd mode' ->
        set_color ucd hid channel mode colors unsafe kwargs tr
        = set_color ucd hid channel' mode' colors unsafe kwargs tr) /\
    (lower ucd channel <> "dpi" -> lower ucd channel <> "logo" ->
     set_color ucd hid channel mode colors unsafe kwargs tr
     = (Raise (ValueError
                 ("Channel " ++ lower ucd channel
                  ++ " invalid, must be one of ("
                  ++ quoted "dpi" ++ ", " ++ quoted "logo" ++ ")")),
        tr)) /\
    (lower ucd channel = "dpi" \/ lower ucd channel = "logo" ->
     lower ucd mode <> "off" -> lower ucd mode <> "fixed" ->
     lower ucd mode <> "breathing" -> lower ucd mode <> "rainbow" ->
     set_color ucd hid channel mode colors unsafe kwargs tr
     = (Raise (ValueError
                 ("Mode " ++ lower ucd mode ++ " invalid, must be one of ("
                  ++ quoted "off" ++ ", " ++ quoted "fixed" ++ ", "
                  ++ quoted "breathing" ++ ", " ++ quoted "rainbow" ++ ")")),
        tr)).
Proof.
  intros U K ucd hid channel mode colors unsafe kwargs tr.
  split; [intros channel' mode'; apply set_color_through_lower|].
  split; [apply set_color_bad_channel | apply set_color_bad_mode].
Qed.

Lemma set_color_rejects_unknown_names_witness :
  set_color sample_unicode quiet "LoGo" "Off" [] PyNone (@nil (str * pyval)) []
  = set_color sample_unicode quiet "logo" "OFF" [] PyNone
      (@nil (str * pyval)) [] /\
  set_color sample_unicode quiet LOGO_acute "fixed"
    [[PyInt 0; PyInt 0; PyInt 0]] PyNone (@nil (str * pyval)) []
  = (Raise (ValueError
              ("Channel " ++ logo_acute ++ " invalid, must be one of ("
               ++ quoted "dpi" ++ ", " ++ quoted "logo" ++ ")")),
     []) /\
  set_color sample_unicode quiet "Wheel" "fixed" [[PyInt 0; PyInt 0; PyInt 0]]
    PyNone (@nil (str * pyval)) []
  = (Raise (ValueError
              ("Channel wheel invalid, must be one of ("
               ++ quoted "dpi" ++ ", " ++ quoted "logo" ++ ")")),
     []) /\
  set_color sample_unicode quiet "LOGO" "Strobe" [[PyInt 0; PyInt 0; PyInt 0]]
    PyNone (@nil (str * pyval)) []
  = (Raise (ValueError
              ("Mode strobe invalid, must be one of ("
               ++ quoted "off" ++ ", " ++ quoted "fixed" ++ ", "
               ++ quoted "breathing" ++ ", " ++ quoted "rainbow" ++ ")")),
     []).
Proof.
  split; [|split; [|split]].
  - refine (proj1 (set_color_rejects_unknown_names _ _ sample_unicode quiet
                     "LoGo" "Off" [] PyNone [] []) "logo" "OFF" _ _);
      reflexivity.
  - refine (proj1 (proj2 (set_color_rejects_unknown_names _ _ sample_unicode
                            quiet LOGO_acute "fixed"
                            [[PyInt 0; PyInt 0; PyInt 0]] PyNone [] [])) _ _);
      discriminate.
  - refine (proj1 (proj2 (set_color_rejects_unknown_names _ _ sample_unicode
                            quiet "Wheel" "fixed"
                            [[PyInt 0; PyInt 0; PyInt 0]] PyNone [] [])) _ _);
      discriminate.
  - refine (proj2 (proj2 (set_color_rejects_unknown_names _ _ sample_unicode
                            quiet "LOGO" "Strobe"
                            [[PyInt 0; PyInt 0; PyInt 0]] PyNone [] []))
              _ _ _ _ _);
      first [discriminate | right; reflexivity].
Defined.

(** A refused component of an RGB triple raises [ValueError] (an integer
    outside 0-255) or [TypeError] (not an integer). *)
Lemma fill_report_triple_refuses c m c0 c1 c2 :
  not_a_byte c0 \/ not_a_byte c1 \/ not_a_byte c2 ->
  exists e,
    fill_report (PyInt c) (PyInt m) [c0; c1; c2] = Raise e /\
    (e = ValueError "byte must be in range(0, 256)" \/ e = TypeError).
Proof.
  intros Hbad.
  assert (exists e, fill_report (PyInt c) (PyInt m) [c0; c1; c2] = Raise e)
    as [e He].
  { destruct Hbad as [H | [H | H]];
      [apply (fill_report_refuses c m _ 0) | apply (fill_report_refuses c m _ 1)
       | apply (fill_report_refuses c m _ 2)];
      (lia || exact H). }
  exists e. split; [exact He|].
  destruct (fill_report_raises _ _ _ _ He) as [-> | [-> | ->]]; auto.
  exfalso. revert He.
  unfold fill_report, bytearray_setitem, py_getitem, rbind. cbn.
  repeat (match goal with
          | |- context [if ?t then _ else _] => destruct t
          | |- context [match ?v with PyInt _ => _ | _ => _ end] => destruct v
          end; cbn; try discriminate).
Qed.

(** C9. With a valid channel and mode, a resolved colour (r, g, b) one of
    whose components is an integer outside 0-255 or is not an integer
    makes [set_color] raise while the buffer is built: [ValueError] for
    the range, [TypeError] for the type.  Nothing is clamped or truncated,
    and the transport is left untouched. *)
Theorem set_color_rejects_bad_component :
  forall (U K : Type) ucd hid channel mode colors (unsafe : U) (kwargs : K)
         c m c0 c1 c2 tr,
    channel_code (lower ucd channel) = Some c ->
    mode_code (lower ucd mode) = Some m ->
    resolved_color colors = [c0; c1; c2] ->
    not_a_byte c0 \/ not_a_byte c1 \/ not_a_byte c2 ->
    exists e,
      set_color ucd hid channel mode colors unsafe kwargs tr = (Raise e, tr) /\
      (e = ValueError "byte must be in range(0, 256)" \/ e = TypeError).
Proof.
  intros U K ucd hid channel mode colors unsafe kwargs c m c0 c1 c2 tr
    Hc Hm Hcol Hbad.
  destruct (fill_report_triple_refuses c m c0 c1 c2 Hbad) as (e & He & Hkind).
  exists e. split; [|exact Hkind].
  rewrite (set_color_valid_names _ _ _ _ _ _ _ c m) by assumption.
  by rewrite Hcol, He.
Qed.

Lemma set_color_rejects_bad_component_witness :
  set_color sample_unicode quiet "logo" "rainbow" [[PyInt 0; PyInt 256; PyInt 0]]
    PyNone (@nil (str * pyval)) []
  = (Raise (ValueError "byte must be in range(0, 256)"), []) /\
  set_color sample_unicode quiet "logo" "rainbow" [[PyInt (-1); PyInt 0; PyInt 0]]
    PyNone (@nil (str * pyval)) []
  = (Raise (ValueError "byte must be in range(0, 256)"), []) /\
  set_color sample_unicode quiet "logo" "rainbow" [[PyInt 0; PyInt 0; PyStr "ff"]]
    PyNone (@nil (str * pyval)) []
  = (Raise TypeError, []) /\
  exists e,
    set_color sample_unicode quiet "dpi" "fixed" [[PyInt 300; PyNone; PyInt 7]]
      PyNone (@nil (str * pyval)) []
    = (Raise e, []) /\
    (e = ValueError "byte must be in range(0, 256)" \/ e = TypeError).
Proof.
  repeat (split; [reflexivity|]).
  refine (set_color_rejects_bad_component _ _ sample_unicode quiet "dpi" "fixed"
            [[PyInt 300; PyNone; PyInt 7]] PyNone [] 0 1
            (PyInt 300) PyNone (PyInt 7) [] eq_refl eq_refl eq_refl _).
  right; left; exact I.
Defined.

(** C10. [set_color] never looks at [unsafe] or at the extra keyword
    arguments: two calls that agree on channel, mode and colours return or
    raise the same and make the same transport calls with the same bytes,
    whatever those other arguments are. *)
Theorem set_color_ignores_unsafe_and_kwargs :
  forall (U1 K1 U2 K2 : Type) ucd hid channel mode colors
         (unsafe1 : U1) (kwargs1 : K1) (unsafe2 : U2) (kwargs2 : K2) tr,
    set_color ucd hid channel mode colors unsafe1 kwargs1 tr
    = set_color ucd hid channel mode colors unsafe2 kwargs2 tr.
Proof. reflexivity. Qed.

(** *** The other entry points *)

(** C7. [set_fixed_speed] and [set_speed_profile] raise
    [NotSupportedByDevice] on every input and leave the transport
    untouched. *)
Theorem speed_control_not_supported :
  forall (C D P K : Type) (channel : C) (duty : D) (profile : P)
         (kwargs : K) tr,
    set_fixed_speed channel duty kwargs tr = (Raise NotSupportedByDevice, tr) /\
    set_speed_profile channel profile kwargs tr = (Raise NotSupportedByDevice, tr).
Proof. intros. split; reflexivity. Qed.

(** C8. [initialize] and [get_status] return the empty list on every input
    and leave the transport untouched. *)
Theorem initialize_and_get_status_are_empty :
  forall (P K : Type) (pump_mode : P) (kwargs : K) tr,
    initialize pump_mode kwargs tr = (Return [], tr) /\
    get_status kwargs tr = (Return [], tr).
Proof. intros. split; reflexivity. Qed.


(** ** Further properties of the storage key *)

Lemma filter_all (p : N -> bool) (s : str) :
  forallb p s = true -> List.filter p s = s.
Proof.
  induction s as [|c s IH]; simpl; [reflexivity|].
  intros [-> Hs]%andb_true_iff. by rewrite IH.
Qed.

Lemma filter_none (p : N -> bool) (s : str) :
  forallb (fun c => negb (p c)) s = true -> List.filter p s = [].
Proof.
  induction s as [|c s IH]; simpl; [reflexivity|].
  intros [Hc Hs]%andb_true_iff. apply negb_true_iff in Hc. rewrite Hc. auto.
Qed.

Lemma digit_runs_shape ucd s runs :
  digit_runs ucd s runs ->
  Forall (fun run => run <> [] /\ all_digits ucd run) runs /\
  concat runs = List.filter (is_digit ucd) s.
Proof.
  induction 1 as [gap Hgap | gap run rest runs Hgap Hne Hrun Hrest _ [IH1 IH2]].
  - split; [constructor|]. simpl. symmetry. by apply filter_none.
  - split; [by constructor|].
    rewrite !List.filter_app, (filter_none _ _ Hgap), (filter_all _ _ Hrun).
    simpl. by rewrite IH2.
Qed.

(** X1. The location prefix stored by [connect] is "loc" followed by
    strings joined with "_" that are non-empty, hold decimal digits only,
    and put end to end are exactly the decimal digits of the address in
    order: [connect] drops no digit of the address, adds none and reorders
    none.  The digits are those of Unicode, not only 0-9. *)
Theorem connect_location_keeps_all_digits (ucd : unicode) (self : driver) :
  exists ids runs,
    _data (connect ucd self) = Some [ids; "loc" ++ join "_" runs] /\
    Forall (fun run => run <> [] /\ all_digits ucd run) runs /\
    concat runs = List.filter (is_digit ucd) (address self).
Proof.
  eexists _, (findall_digits ucd (address self)).
  split; [reflexivity|].
  apply digit_runs_shape, findall_digits_runs.
Qed.

Lemma join_unfold sep p ps :
  join sep (p :: ps)
  = p ++ match ps with [] => [] | _ => sep ++ join sep ps end.
Proof. destruct ps; simpl; [by rewrite app_nil_r | reflexivity]. Qed.

(** Digit runs never contain the separator, so joining them loses
    nothing. *)
Lemma join_runs_inj ucd runs1 runs2 :
  Forall (fun run => run <> [] /\ all_digits ucd run) runs1 ->
  Forall (fun run => run <> [] /\ all_digits ucd run) runs2 ->
  join "_" runs1 = join "_" runs2 -> runs1 = runs2.
Proof.
  intros H1. revert runs2.
  induction H1 as [|r1 rs1 [Hne1 Hd1] H1 IH]; intros runs2 H2 E.
  - destruct H2 as [|r2 rs2 [Hne2 _] _]; [reflexivity|].
    rewrite join_unfold in E. destruct r2; [congruence | discriminate].
  - destruct H2 as [|r2 rs2 [Hne2 Hd2] H2].
    { rewrite join_unfold in E. destruct r1; [congruence | discriminate]. }
    rewrite !join_unfold in E.
    apply (class_prefix_unique (is_digit ucd)) in E as [-> E];
      try assumption.
    + f_equal. destruct rs1 as [|q1 rs1], rs2 as [|q2 rs2];
        try reflexivity; try discriminate.
      injection E as E. by apply IH.
    + by destruct rs1.
    + by destruct rs2.
Qed.

(** ** Reading back the hexadecimal fields *)

Lemma hex_digit_value_digit d :
  (d < 16)%N -> hex_digit_value (hex_digit d) = Some d.
Proof.
  intros Hd. destruct d as [|p]; [reflexivity|].
  do 5 (try destruct p as [p|p|]); try reflexivity; lia.
Qed.

Lemma hex_value_from_app s t v w :
  hex_value_from v s = Some w ->
  hex_value_from v (s +:+ t) = hex_value_from w t.
Proof.
  revert v. induction s as [|c s IH]; intros v;
    rewrite ?append_cons, ?append_nil_l; simpl.
  - by intros [= ->].
  - destruct (hex_digit_value c); [apply IH | discriminate].
Qed.

Lemma hex_value_from_chars s v w :
  hex_value_from v s = Some w -> string_forall is_hex_char s = true.
Proof.
  revert v. induction s as [|c s IH]; intros v; simpl; [reflexivity|].
  unfold is_hex_char. destruct (hex_digit_value c); [|discriminate].
  intros H. simpl. eauto.
Qed.

(** What [hex_digits] pushes in front of [acc] reads back as [n], shifted
    past whatever was read before. *)
Lemma hex_digits_value fuel n acc :
  (n < 16 ^ N.of_nat fuel)%N ->
  exists ds e,
    hex_digits fuel n acc = ds +:+ acc /\
    forall v, hex_value_from v ds = Some (v * 16 ^ e + n)%N.
Proof.
  revert n acc. induction fuel as [|fuel IH]; intros n acc Hn.
  { simpl in Hn. assert (n = 0%N) as -> by lia.
    exists EmptyString, 0%N. split; [reflexivity|].
    intros v. simpl. f_equal. lia. }
  destruct (N.lt_ge_cases n 16) as [Hsmall|Hbig].
  - rewrite hex_digits_last by assumption.
    exists (String (hex_digit n) EmptyString), 1%N. split; [reflexivity|].
    intros v. simpl. rewrite hex_digit_value_digit by assumption.
    f_equal. lia.
  - rewrite hex_digits_step by assumption.
    assert (Hq : (n / 16 < 16 ^ N.of_nat fuel)%N).
    { rewrite Nat2N.inj_succ, N.pow_succ_r' in Hn.
      apply N.Div0.div_lt_upper_bound. lia. }
    destruct (IH (n / 16)%N (String (hex_digit (n mod 16)) acc) Hq)
      as (ds & e & Hds & Hval).
    exists (ds +:+ String (hex_digit (n mod 16)) EmptyString), (e + 1)%N.
    split; [by rewrite Hds, append_assoc|].
    intros v. rewrite (hex_value_from_app _ _ _ _ (Hval v)). simpl.
    rewrite hex_digit_value_digit by (apply N.mod_lt; lia).
    f_equal. rewrite N.pow_add_r, N.pow_1_r.
    pose proof (N.div_mod n 16 ltac:(lia)). nia.
Qed.

Lemma hex_value_from_zeros k s : hex_value_from 0 (zeros k +:+ s) = hex_value_from 0 s.
Proof.
  induction k as [|k IH]; rewrite ?append_cons, ?append_nil_l; simpl;
    [reflexivity|exact IH].
Qed.

Lemma format_x_value n : hex_value (format_x n) = Some n.
Proof.
  unfold format_x, hex_value.
  destruct (hex_digits_value (S (N.to_nat (N.size n))) n EmptyString)
    as (ds & e & -> & Hval).
  - pose proof (N.size_gt n) as Hs.
    rewrite Nat2N.inj_succ, N2Nat.id, N.pow_succ_r'.
    assert (2 ^ N.size n <= 16 ^ N.size n)%N
      by (apply N.pow_le_mono_l; lia).
    assert (0 < 16 ^ N.size n)%N by (apply N.neq_0_lt_0, N.pow_nonzero; lia).
    lia.
  - rewrite append_nil_r, Hval. reflexivity.
Qed.

Lemma string_length_app s t :
  String.length (s +:+ t) = (String.length s + String.length t)%nat.
Proof.
  induction s as [|c s IH]; rewrite ?append_cons, ?append_nil_l; simpl; lia.
Qed.

Lemma zeros_length k : String.length (zeros k) = k.
Proof. induction k; simpl; lia. Qed.

(** X2. Formatting with '04x' loses nothing, for ids of any size: the text
    has at least four characters, all of them lowercase hexadecimal
    digits, and read back as a hexadecimal number it is the id again (no
    truncation to 16 bits, no sign, no prefix). *)
Theorem format_04x_round_trip (n : N) :
  hex_value (format_04x n) = Some n /\
  (4 <= String.length (format_04x n))%nat /\
  string_forall is_hex_char (format_04x n) = true.
Proof.
  assert (Hv : hex_value (format_04x n) = Some n).
  { unfold format_04x, zfill, hex_value.
    rewrite hex_value_from_zeros. apply format_x_value. }
  split; [exact Hv|]. split.
  - unfold format_04x, zfill. rewrite string_length_app, zeros_length. lia.
  - exact (hex_value_from_chars _ _ _ Hv).
Qed.

Lemma format_04x_inj n1 n2 : format_04x n1 = format_04x n2 -> n1 = n2.
Proof.
  intros E.
  pose proof (format_x_value n1) as H1. pose proof (format_x_value n2) as H2.
  unfold hex_value in H1, H2.
  rewrite <- (hex_value_from_zeros (4 - String.length (format_x n1))) in H1.
  rewrite <- (hex_value_from_zeros (4 - String.length (format_x n2))) in H2.
  unfold format_04x, zfill in E. congruence.
Qed.

Lemma format_04x_codes n : forallb is_hex_code (codes (format_04x n)) = true.
Proof.
  apply (codes_forall is_hex_char), (hex_value_from_chars _ 0%N n).
  unfold format_04x, zfill. rewrite hex_value_from_zeros. apply format_x_value.
Qed.

Lemma two_keys (a b c d : str) :
  Some [a; b] = Some [c; d] -> a = c /\ b = d.
Proof. by intros [= -> ->]. Qed.

(** X3. Two devices get the same pair of key prefixes from [connect]
    exactly when they have the same vendor id, the same product id and
    the same runs of decimal digits in their addresses: the pair separates
    any two models and any two addresses that differ in a number, and
    nothing else.  Ids are of any size, addresses are any strings. *)
Theorem connect_same_key_iff (ucd : unicode) (d1 d2 : driver) :
  _data (connect ucd d1) = _data (connect ucd d2) <->
  vendor_id d1 = vendor_id d2 /\
  product_id d1 = product_id d2 /\
  exists runs,
    digit_runs ucd (address d1) runs /\ digit_runs ucd (address d2) runs.
Proof.
  unfold connect. simpl _data. split.
  - intros [Hids Hloc]%two_keys.
    apply (app_inv_head (codes "vid")) in Hids.
    apply (class_prefix_unique is_hex_code) in Hids as [Hv Hp];
      [| apply format_04x_codes | apply format_04x_codes
       | reflexivity | reflexivity].
    apply (app_inv_head (codes "_pid")) in Hp.
    apply codes_inj, format_04x_inj in Hv.
    apply codes_inj, format_04x_inj in Hp.
    apply (app_inv_head (codes "loc")) in Hloc.
    apply (join_runs_inj ucd) in Hloc;
      [| apply (digit_runs_shape _ _ _ (findall_digits_runs _ _))..].
    split; [exact Hv|]. split; [exact Hp|].
    exists (findall_digits ucd (address d1)).
    split; [apply findall_digits_runs|].
    rewrite Hloc. apply findall_digits_runs.
  - intros (-> & -> & runs & H1 & H2).
    by rewrite (digit_runs_findall _ _ _ H1), (digit_runs_findall _ _ _ H2).
Qed.

(** ** Further properties of [set_color] *)

Lemma fill_report_take3 channel mode color :
  fill_report channel mode (take 3 color) = fill_report channel mode color.
Proof. destruct color as [|v0 [|v1 [|v2 rest]]]; reflexivity. Qed.

(** A finished buffer means byte codes and three byte components, and is
    the report of those. *)
Lemma fill_report_inv c m color buf :
  fill_report (PyInt c) (PyInt m) color = Return buf ->
  is_byte c /\ is_byte m /\
  exists r g b rest,
    color = PyInt r :: PyInt g :: PyInt b :: rest /\
    is_byte r /\ is_byte g /\ is_byte b /\ buf = report c m r g b.
Proof.
  unfold fill_report, bytearray_setitem, py_getitem, rbind, report. cbn.
  destruct ((0 <=? c) && (c <? 256)) eqn:Ec; [|discriminate]; cbn.
  destruct ((0 <=? m) && (m <? 256)) eqn:Em; [|discriminate]; cbn.
  destruct color as [|v0 color]; [discriminate|]. cbn.
  destruct v0 as [r| |]; [|discriminate..].
  destruct ((0 <=? r) && (r <? 256)) eqn:Er; [|discriminate]. cbn.
  destruct color as [|v1 color]; [discriminate|]. cbn.
  destruct v1 as [g| |]; [|discriminate..].
  destruct ((0 <=? g) && (g <? 256)) eqn:Eg; [|discriminate]. cbn.
  destruct color as [|v2 color]; [discriminate|]. cbn.
  destruct v2 as [b| |]; [|discriminate..].
  destruct ((0 <=? b) && (b <? 256)) eqn:Eb; [|discriminate]. cbn.
  intros Hbuf.
  apply andb_true_iff in Ec, Em, Er, Eg, Eb. unfold is_byte.
  split; [lia|]. split; [lia|].
  exists r, g, b, color. split; [reflexivity|].
  repeat (split; [lia|]).
  destruct (m =? 1); by injection Hbuf as <-.
Qed.

Lemma report_bytes c m r g b :
  is_byte c -> is_byte m -> is_byte r -> is_byte g -> is_byte b ->
  Forall is_byte (report c m r g b).
Proof.
  intros Hc Hm Hr Hg Hb. unfold report.
  repeat (constructor; [first [assumption | destruct (m =? 1); unfold is_byte; lia]|]).
  constructor.
Qed.

(** The four ways through [set_color]. *)
Lemma set_color_cases {U K : Type} ucd hid channel mode colors
    (unsafe : U) (kwargs : K) tr :
  (channel_code (lower ucd channel) = None /\
   set_color ucd hid channel mode colors unsafe kwargs tr
   = (Raise (channel_error (lower ucd channel)), tr)) \/
  (channel_code (lower ucd channel) <> None /\
   mode_code (lower ucd mode) = None /\
   set_color ucd hid channel mode colors unsafe kwargs tr
   = (Raise (mode_error (lower ucd mode)), tr)) \/
  (exists c m e,
      channel_code (lower ucd channel) = Some c /\
      mode_code (lower ucd mode) = Some m /\
      fill_report (PyInt c) (PyInt m) (resolved_color colors) = Raise e /\
      set_color ucd hid channel mode colors unsafe kwargs tr = (Raise e, tr)) \/
  (exists c m buf,
      channel_code (lower ucd channel) = Some c /\
      mode_code (lower ucd mode) = Some m /\
      fill_report (PyInt c) (PyInt m) (resolved_color colors) = Return buf /\
      set_color ucd hid channel mode colors unsafe kwargs tr = round_trip hid buf tr).
Proof.
  destruct (channel_code (lower ucd channel)) as [c|] eqn:Hc.
  - destruct (mode_code (lower ucd mode)) as [m|] eqn:Hm.
    + right. right.
      pose proof (set_color_valid_names ucd hid channel mode colors unsafe kwargs
                    c m tr Hc Hm) as E.
      destruct (fill_report _ _ _) as [buf|e] eqn:Hf.
      * right. by exists c, m, buf.
      * left. by exists c, m, e.
    + right. left. split; [discriminate|]. split; [reflexivity|].
      apply mode_code_None in Hm as (H1 & H2 & H3 & H4).
      apply channel_code_Some in Hc.
      apply set_color_bad_mode; (assumption || tauto).
  - left. split; [reflexivity|].
    apply channel_code_None in Hc as (H1 & H2).
    by apply set_color_bad_channel.
Qed.

(** X4. Only the first colour counts, and only its first three
    components: any further colours and components are ignored, and an
    empty list of colours behaves as one black colour.  This holds for
    every mode, "fixed" and "breathing" included. *)
Theorem set_color_reads_first_three_components :
  forall (U K : Type) ucd hid channel mode colors (unsafe : U) (kwargs : K) tr,
    set_color ucd hid channel mode colors unsafe kwargs tr
    = set_color ucd hid channel mode [take 3 (resolved_color colors)]
        unsafe kwargs tr.
Proof.
  intros U K ucd hid channel mode colors unsafe kwargs tr.
  destruct (set_color_cases ucd hid channel mode [take 3 (resolved_color colors)]
              unsafe kwargs tr)
    as [[Hc ->] | [(Hc & Hm & ->) | [(c & m & e & Hc & Hm & Hf & ->)
                                    | (c & m & buf & Hc & Hm & Hf & ->)]]].
  - apply channel_code_None in Hc as (H1 & H2). by apply set_color_bad_channel.
  - destruct (set_color_cases ucd hid channel mode colors unsafe kwargs tr)
      as [[Hc' E] | [(_ & _ & E) | [(c & m & e & _ & Hm' & _)
                                   | (c & m & buf & _ & Hm' & _)]]];
      congruence.
  - rewrite (set_color_valid_names _ _ _ _ _ _ _ c m) by assumption.
    simpl in Hf. rewrite fill_report_take3 in Hf. by rewrite Hf.
  - rewrite (set_color_valid_names _ _ _ _ _ _ _ c m) by assumption.
    simpl in Hf. rewrite fill_report_take3 in Hf. by rewrite Hf.
Qed.

(** X5. With a valid channel and mode, a resolved colour of fewer than
    three components, each of them a byte, raises [IndexError] when the
    missing component is read, and the transport is left untouched. *)
Theorem set_color_short_color :
  forall (U K : Type) ucd hid channel mode colors (unsafe : U) (kwargs : K)
         c m tr,
    channel_code (lower ucd channel) = Some c ->
    mode_code (lower ucd mode) = Some m ->
    (length (resolved_color colors) < 3)%nat ->
    Forall (fun v => exists z, v = PyInt z /\ is_byte z) (resolved_color colors) ->
    set_color ucd hid channel mode colors unsafe kwargs tr = (Raise IndexError, tr).
Proof.
  intros U K ucd hid channel mode colors unsafe kwargs c m tr Hc Hm Hlen Hall.
  rewrite (set_color_valid_names _ _ _ _ _ _ _ c m) by assumption.
  pose proof (is_byte_test _ (channel_code_byte _ _ Hc)) as Ec.
  pose proof (is_byte_test _ (mode_code_byte _ _ Hm)) as Em.
  assert (fill_report (PyInt c) (PyInt m) (resolved_color colors)
          = Raise IndexError) as ->; [|reflexivity].
  unfold fill_report, bytearray_setitem, py_getitem, rbind. cbn.
  rewrite Ec. cbn. rewrite Em. cbn.
  destruct (resolved_color colors) as [|v0 [|v1 [|v2 rest]]];
    [reflexivity | | | simpl in Hlen; lia].
  - apply Forall_cons in Hall as [(z0 & -> & H0) _].
    cbn. by rewrite (is_byte_test _ H0).
  - apply Forall_cons in Hall as [(z0 & -> & H0) Hall].
    apply Forall_cons in Hall as [(z1 & -> & H1) _].
    cbn. rewrite (is_byte_test _ H0). cbn. by rewrite (is_byte_test _ H1).
Qed.

Lemma set_color_short_color_witness :
  set_color sample_unicode quiet "logo" "rainbow" [[PyInt 255; PyInt 128]]
    PyNone (@nil (str * pyval)) []
  = (Raise IndexError, []).
Proof.
  refine (set_color_short_color _ _ sample_unicode quiet "logo" "rainbow"
            [[PyInt 255; PyInt 128]] PyNone [] 1 3 [] eq_refl eq_refl _ _).
  - simpl. lia.
  - repeat constructor; eexists; (split; [reflexivity | unfold is_byte; lia]).
Defined.

(** X6. Whatever the arguments and whatever the transport does, a call
    either raises with the transport untouched, or attempts a non-empty
    prefix of: discard, one write, one read of 20 bytes.  The buffer of
    that write always has 21 elements, each one a byte, and starts with
    0x00, 0x11, 0xFF, 0x02, 0x3A.  Earlier transport calls stay in the
    trace. *)
Theorem set_color_all_or_nothing :
  forall (U K : Type) ucd hid channel mode colors (unsafe : U) (kwargs : K) tr,
    (exists e,
        set_color ucd hid channel mode colors unsafe kwargs tr = (Raise e, tr)) \/
    (exists buf res k,
        length buf = 21%nat /\
        Forall is_byte buf /\
        take 5 buf = [0; 0x11; 0xFF; 0x02; 0x3A] /\
        (1 <= k <= 3)%nat /\
        set_color ucd hid channel mode colors unsafe kwargs tr
        = (res, tr ++ take k [EvClear; EvWrite buf; EvRead 20])).
Proof.
  intros U K ucd hid channel mode colors unsafe kwargs tr.
  destruct (set_color_cases ucd hid channel mode colors unsafe kwargs tr)
    as [[_ E] | [(_ & _ & E) | [(c & m & e & _ & _ & _ & E)
                               | (c & m & buf & Hc & Hm & Hf & E)]]];
    [left; eauto..|].
  right.
  apply fill_report_inv in Hf
    as (Bc & Bm & r & g & b & rest & _ & Br & Bg & Bb & ->).
  destruct (round_trip_prefix hid (report c m r g b) tr) as (res & k & Hk & Hrt).
  exists (report c m r g b), res, k.
  split; [reflexivity|]. split; [by apply report_bytes|].
  split; [reflexivity|]. split; [exact Hk|].
  by rewrite E.
Qed.

(** X7. On a transport that works, a call returns (rather than raises)
    exactly when the lowercased channel and mode are known and the
    resolved colour starts with three integers in 0-255: the number of
    colours plays no part. *)
Theorem set_color_returns_iff :
  forall (U K : Type) ucd hid channel mode colors (unsafe : U) (kwargs : K) tr,
    well_behaved hid ->
    (fst (set_color ucd hid channel mode colors unsafe kwargs tr) = Return tt <->
     exists c m r g b rest,
       channel_code (lower ucd channel) = Some c /\
       mode_code (lower ucd mode) = Some m /\
       resolved_color colors = PyInt r :: PyInt g :: PyInt b :: rest /\
       is_byte r /\ is_byte g /\ is_byte b).
Proof.
  intros U K ucd hid channel mode colors unsafe kwargs tr Hhid. split.
  - destruct (set_color_cases ucd hid channel mode colors unsafe kwargs tr)
      as [[_ ->] | [(_ & _ & ->) | [(c & m & e & _ & _ & _ & ->)
                                   | (c & m & buf & Hc & Hm & Hf & _)]]];
      [discriminate..|].
    intros _.
    apply fill_report_inv in Hf
      as (_ & _ & r & g & b & rest & Hcol & Br & Bg & Bb & _).
    by exists c, m, r, g, b, rest.
  - intros (c & m & r & g & b & rest & Hc & Hm & Hcol & Br & Bg & Bb).
    rewrite (set_color_accepts ucd hid _ _ _ _ _ c m r g b rest) by assumption.
    by rewrite round_trip_well_behaved.
Qed.

Lemma set_color_returns_iff_witness :
  well_behaved quiet /\
  fst (set_color sample_unicode quiet "dpi" "breathing"
         [[PyInt 1; PyInt 2; PyInt 3; PyNone]; [PyStr "x"]]
         PyNone (@nil (str * pyval)) [])
  = Return tt.
Proof.
  split; [exact quiet_well_behaved|].
  apply (proj2 (set_color_returns_iff _ _ sample_unicode quiet "dpi" "breathing"
                  [[PyInt 1; PyInt 2; PyInt 3; PyNone]; [PyStr "x"]]
                  PyNone [] [] quiet_well_behaved)).
  exists 0, 2, 1, 2, 3, [PyNone].
  repeat (split; [reflexivity || (unfold is_byte; lia)|]).
  unfold is_byte; lia.
Defined.

Lemma channel_code_inj n1 n2 c :
  channel_code n1 = Some c -> channel_code n2 = Some c -> n1 = n2.
Proof.
  intros H1 H2. apply channel_code_Some in H1, H2.
  destruct H1 as [[-> ->]|[-> ->]], H2 as [[-> E]|[-> E]];
    (reflexivity || discriminate).
Qed.

Lemma mode_code_inj n1 n2 m :
  mode_code n1 = Some m -> mode_code n2 = Some m -> n1 = n2.
Proof.
  intros H1 H2. apply mode_code_Some in H1, H2.
  destruct H1 as [[-> ->]|[[-> ->]|[[-> ->]|[-> ->]]]],
           H2 as [[-> E]|[[-> E]|[[-> E]|[-> E]]]];
    (reflexivity || discriminate).
Qed.

(** X8. On a transport that works, two valid requests drive it the same
    way exactly when they agree on the lowercased channel, the lowercased
    mode and the three components of the resolved colour: different
    lighting requests never share a report. *)
Theorem set_color_same_report_iff :
  forall (U K : Type) ucd hid
         channel1 mode1 colors1 channel2 mode2 colors2
         (unsafe : U) (kwargs : K) c1 m1 r1 g1 b1 c2 m2 r2 g2 b2 tr,
    well_behaved hid ->
    channel_code (lower ucd channel1) = Some c1 ->
    mode_code (lower ucd mode1) = Some m1 ->
    resolved_color colors1 = [PyInt r1; PyInt g1; PyInt b1] ->
    is_byte r1 -> is_byte g1 -> is_byte b1 ->
    channel_code (lower ucd channel2) = Some c2 ->
    mode_code (lower ucd mode2) = Some m2 ->
    resolved_color colors2 = [PyInt r2; PyInt g2; PyInt b2] ->
    is_byte r2 -> is_byte g2 -> is_byte b2 ->
    (set_color ucd hid channel1 mode1 colors1 unsafe kwargs tr
     = set_color ucd hid channel2 mode2 colors2 unsafe kwargs tr <->
     lower ucd channel1 = lower ucd channel2 /\ lower ucd mode1 = lower ucd mode2 /\
     r1 = r2 /\ g1 = g2 /\ b1 = b2).
Proof.
  intros U K ucd hid channel1 mode1 colors1 channel2 mode2 colors2 unsafe kwargs
    c1 m1 r1 g1 b1 c2 m2 r2 g2 b2 tr Hhid
    Hc1 Hm1 Hcol1 Hr1 Hg1 Hb1 Hc2 Hm2 Hcol2 Hr2 Hg2 Hb2.
  rewrite (set_color_accepts ucd hid channel1 _ _ _ _ c1 m1 r1 g1 b1 [])
    by assumption.
  rewrite (set_color_accepts ucd hid channel2 _ _ _ _ c2 m2 r2 g2 b2 [])
    by assumption.
  rewrite !round_trip_well_behaved by assumption.
  split.
  - intros [= E]. apply app_inv_head in E.
    unfold exchange, report in E.
    injection E as <- <- <- <- <- _.
    split; [by apply (channel_code_inj _ _ c1)|].
    split; [by apply (mode_code_inj _ _ m1)|]. auto.
  - intros (Ec & Em & -> & -> & ->).
    rewrite Ec in Hc1. rewrite Em in Hm1. congruence.
Qed.

Lemma set_color_same_report_iff_witness :
  set_color sample_unicode quiet "DPI" "Fixed" [[PyInt 9; PyInt 8; PyInt 7]]
    PyNone (@nil (str * pyval)) []
  = set_color sample_unicode quiet "dpi" "FIXED" [[PyInt 9; PyInt 8; PyInt 7]; [PyInt 1]]
      PyNone (@nil (str * pyval)) [].
Proof.
  assert (H9 : is_byte 9) by (unfold is_byte; lia).
  assert (H8 : is_byte 8) by (unfold is_byte; lia).
  assert (H7 : is_byte 7) by (unfold is_byte; lia).
  apply (proj2 (set_color_same_report_iff _ _ sample_unicode quiet
                  "DPI" "Fixed" [[PyInt 9; PyInt 8; PyInt 7]]
                  "dpi" "FIXED" [[PyInt 9; PyInt 8; PyInt 7]; [PyInt 1]]
                  PyNone [] 0 1 9 8 7 0 1 9 8 7 [] quiet_well_behaved
                  eq_refl eq_refl eq_refl H9 H8 H7
                  eq_refl eq_refl eq_refl H9 H8 H7)).
  repeat split.
Defined.

(** X9. Calls are independent: on a transport that works, two valid
    requests made one after the other leave the two exchanges one after
    the other, each with the report of its own request; nothing of the
    first call shows in the second. *)
Theorem set_color_twice :
  forall (U K : Type) ucd hid
         channel1 mode1 colors1 channel2 mode2 colors2
         (unsafe : U) (kwargs : K) c1 m1 r1 g1 b1 c2 m2 r2 g2 b2 tr,
    well_behaved hid ->
    channel_code (lower ucd channel1) = Some c1 ->
    mode_code (lower ucd mode1) = Some m1 ->
    resolved_color colors1 = [PyInt r1; PyInt g1; PyInt b1] ->
    is_byte r1 -> is_byte g1 -> is_byte b1 ->
    channel_code (lower ucd channel2) = Some c2 ->
    mode_code (lower ucd mode2) = Some m2 ->
    resolved_color colors2 = [PyInt r2; PyInt g2; PyInt b2] ->
    is_byte r2 -> is_byte g2 -> is_byte b2 ->
    (set_color ucd hid channel1 mode1 colors1 unsafe kwargs ;;;
     set_color ucd hid channel2 mode2 colors2 unsafe kwargs) tr
    = (Return tt,
       tr ++ [EvClear; EvWrite (report c1 m1 r1 g1 b1); EvRead 20;
              EvClear; EvWrite (report c2 m2 r2 g2 b2); EvRead 20]).
Proof.
  intros U K ucd hid channel1 mode1 colors1 channel2 mode2 colors2 unsafe kwargs
    c1 m1 r1 g1 b1 c2 m2 r2 g2 b2 tr Hhid
    Hc1 Hm1 Hcol1 Hr1 Hg1 Hb1 Hc2 Hm2 Hcol2 Hr2 Hg2 Hb2.
  unfold bind.
  rewrite (set_color_accepts ucd hid channel1 _ _ _ _ c1 m1 r1 g1 b1 [])
    by assumption.
  rewrite round_trip_well_behaved by assumption.
  rewrite (set_color_accepts ucd hid channel2 _ _ _ _ c2 m2 r2 g2 b2 [])
    by assumption.
  rewrite round_trip_well_behaved by assumption.
  by rewrite <- app_assoc.
Qed.

Lemma set_color_twice_witness :
  (set_color sample_unicode quiet "logo" "fixed" [[PyInt 255; PyInt 0; PyInt 0]]
     PyNone (@nil (str * pyval)) ;;;
   set_color sample_unicode quiet "logo" "off" [] PyNone (@nil (str * pyval))) []
  = (Return tt,
     [EvClear; EvWrite (report 1 1 255 0 0); EvRead 20;
      EvClear; EvWrite (report 1 0 0 0 0); EvRead 20]).
Proof.
  assert (H255 : is_byte 255) by (unfold is_byte; lia).
  assert (H0 : is_byte 0) by (unfold is_byte; lia).
  exact (set_color_twice _ _ sample_unicode quiet
           "logo" "fixed" [[PyInt 255; PyInt 0; PyInt 0]] "logo" "off" []
           PyNone [] 1 1 255 0 0 1 0 0 0 0 [] quiet_well_behaved
           eq_refl eq_refl eq_refl H255 H0 H0
           eq_refl eq_refl eq_refl H0 H0 H0).
Defined.

(** X10. A transport failure ends the call where it happens and comes out
    unchanged: for a valid request, if the discard fails nothing is
    written; if the write fails nothing is read; if the read fails the
    three calls have been made.  No call is retried. *)
Theorem set_color_transport_failure :
  forall (U K : Type) ucd hid channel mode colors (unsafe : U) (kwargs : K)
         c m r g b tr,
    channel_code (lower ucd channel) = Some c ->
    mode_code (lower ucd mode) = Some m ->
    resolved_color colors = [PyInt r; PyInt g; PyInt b] ->
    is_byte r -> is_byte g -> is_byte b ->
    let buf := report c m r g b in
    (hid tr EvClear = None ->
     set_color ucd hid channel mode colors unsafe kwargs tr
     = (Raise OSError, tr ++ [EvClear])) /\
    (hid tr EvClear <> None ->
     hid (tr ++ [EvClear]) (EvWrite buf) = None ->
     set_color ucd hid channel mode colors unsafe kwargs tr
     = (Raise OSError, tr ++ [EvClear; EvWrite buf])) /\
    (hid tr EvClear <> None ->
     hid (tr ++ [EvClear]) (EvWrite buf) <> None ->
     hid (tr ++ [EvClear; EvWrite buf]) (EvRead 20) = None ->
     set_color ucd hid channel mode colors unsafe kwargs tr
     = (Raise OSError, tr ++ [EvClear; EvWrite buf; EvRead 20])).
Proof.
  intros U K ucd hid channel mode colors unsafe kwargs c m r g b tr
    Hc Hm Hcol Hr Hg Hb buf.
  rewrite (set_color_accepts ucd hid channel _ _ _ _ c m r g b []) by assumption.
  fold buf. unfold round_trip, bind, device_call, lift, ret.
  change (Z.of_nat _REPORT_LENGTH) with 20.
  destruct (hid tr EvClear) as [a1|].
  - split; [discriminate|].
    destruct (hid (tr ++ [EvClear]) (EvWrite buf)) as [a2|].
    + split; [discriminate|]. intros _ _ H3.
      rewrite <- !app_assoc. simpl. by rewrite H3.
    + split; [intros _ _; by rewrite <- !app_assoc|].
      intros _ H. by destruct H.
  - split; [reflexivity|]. split; intros H; by destruct H.
Qed.

Lemma set_color_transport_failure_witness :
  set_color sample_unicode (fails_after 0) "logo" "fixed" [[PyInt 1; PyInt 2; PyInt 3]]
    PyNone (@nil (str * pyval)) []
  = (Raise OSError, [EvClear]) /\
  set_color sample_unicode (fails_after 1) "logo" "fixed" [[PyInt 1; PyInt 2; PyInt 3]]
    PyNone (@nil (str * pyval)) []
  = (Raise OSError, [EvClear; EvWrite (report 1 1 1 2 3)]) /\
  set_color sample_unicode (fails_after 2) "logo" "fixed" [[PyInt 1; PyInt 2; PyInt 3]]
    PyNone (@nil (str * pyval)) []
  = (Raise OSError, [EvClear; EvWrite (report 1 1 1 2 3); EvRead 20]).
Proof.
  assert (H1 : is_byte 1) by (unfold is_byte; lia).
  assert (H2 : is_byte 2) by (unfold is_byte; lia).
  assert (H3 : is_byte 3) by (unfold is_byte; lia).
  split; [|split].
  - apply (proj1 (set_color_transport_failure _ _ sample_unicode (fails_after 0)
                    "logo" "fixed" [[PyInt 1; PyInt 2; PyInt 3]] PyNone []
                    1 1 1 2 3 [] eq_refl eq_refl eq_refl H1 H2 H3)).
    reflexivity.
  - apply (proj1 (proj2 (set_color_transport_failure _ _ sample_unicode (fails_after 1)
                    "logo" "fixed" [[PyInt 1; PyInt 2; PyInt 3]] PyNone []
                    1 1 1 2 3 [] eq_refl eq_refl eq_refl H1 H2 H3)));
      [discriminate | reflexivity].
  - apply (proj2 (proj2 (set_color_transport_failure _ _ sample_unicode (fails_after 2)
                    "logo" "fixed" [[PyInt 1; PyInt 2; PyInt 3]] PyNone []
                    1 1 1 2 3 [] eq_refl eq_refl eq_refl H1 H2 H3)));
      [discriminate | discriminate | reflexivity].
Defined.
